(** * Dashboard.py: the daily push-activity pipeline

    A shallow embedding of [src/Dashboard.py]: the three functions
    [fetch_user_events], [resolve_project_name] and the two report loops
    (bulk CSV tab and single-user tab), over a small model of the Python
    values they handle (JSON documents, HTTP responses, datetimes) and
    of the exceptions the interpreter raises on them.

    Presentation calls (streamlit, plotly, fpdf) are outside the model. *)

From Stdlib Require Import String Ascii List ZArith Bool Lia Arith.
From Stdlib Require Import DecimalString OrderedTypeEx Sorted Permutation.
Import ListNotations.
Local Open Scope string_scope.
Local Open Scope list_scope.

(** ** Exceptions and results *)

(** The exception classes that can surface in the modelled code. The last
    three come from the HTTP client: [JSONDecodeError] from
    [Response.json()], the other two from [requests.get] itself. *)
Inductive exn : Type :=
| KeyError | IndexError | TypeError | AttributeError | ValueError
| OverflowError | JSONDecodeError | ConnectionError | ReadTimeout.

Inductive result (A : Type) : Type :=
| Ok (a : A)
| Raise (e : exn).
Arguments Ok {A} a.
Arguments Raise {A} e.

Definition rbind {A B} (r : result A) (k : A -> result B) : result B :=
  match r with
  | Ok a => k a
  | Raise e => Raise e
  end.

Declare Scope py_scope.
Delimit Scope py_scope with py.
Notation "x <- e ;; k" := (rbind e (fun x => k))
  (at level 61, e at next level, right associativity) : py_scope.
Notation "' pat <- e ;; k" := (rbind e (fun x => match x with pat => k end))
  (at level 61, pat pattern, e at next level, right associativity) : py_scope.
Local Open Scope py_scope.

(** ** Python values read from the wire *)

Set Warnings "-register-all".

(** What [Response.json()] returns. An object is the parsed [dict] in
    insertion order (its keys are distinct); numbers are the integers,
    non-integer numbers are not modelled. [JNull] is Python's [None]. *)
Inductive json : Type :=
| JNull
| JBool (b : bool)
| JNum (n : Z)
| JStr (s : string)
| JArr (items : list json)
| JObj (fields : list (string * json)).

Fixpoint dict_lookup (k : string) (fields : list (string * json)) : option json :=
  match fields with
  | [] => None
  | (k', v) :: rest => if String.eqb k k' then Some v else dict_lookup k rest
  end.

(** [v[k]] for a string key [k]. *)
Definition getitem (v : json) (k : string) : result json :=
  match v with
  | JObj fields =>
      match dict_lookup k fields with
      | Some x => Ok x
      | None => Raise KeyError
      end
  | _ => Raise TypeError
  end.

(** [v[i]] for an integer index [i >= 0]. *)
Definition getitem_int (v : json) (i : nat) : result json :=
  match v with
  | JArr items =>
      match nth_error items i with
      | Some x => Ok x
      | None => Raise IndexError
      end
  | JStr s =>
      match String.get i s with
      | Some c => Ok (JStr (String c EmptyString))
      | None => Raise IndexError
      end
  | JObj _ => Raise KeyError
  | _ => Raise TypeError
  end.

(** [v.get(k)] and [v.get(k, default)]: only a dict has the method. *)
Definition dict_get (v : json) (k : string) (default : json) : result json :=
  match v with
  | JObj fields =>
      match dict_lookup k fields with
      | Some x => Ok x
      | None => Ok default
      end
  | _ => Raise AttributeError
  end.

(** Truth value, as tested by [not resp.json()]. *)
Definition truthy (v : json) : bool :=
  match v with
  | JNull => false
  | JBool b => b
  | JNum n => negb (Z.eqb n 0)
  | JStr s => negb (String.eqb s "")
  | JArr items => match items with [] => false | _ => true end
  | JObj fields => match fields with [] => false | _ => true end
  end.

Fixpoint chars (s : string) : list json :=
  match s with
  | EmptyString => []
  | String c rest => JStr (String c EmptyString) :: chars rest
  end.

(** The items a [for] loop visits. *)
Definition py_iter (v : json) : result (list json) :=
  match v with
  | JArr items => Ok items
  | JObj fields => Ok (map (fun kv => JStr (fst kv)) fields)
  | JStr s => Ok (chars s)
  | _ => Raise TypeError
  end.

(** [v == s] for a string literal [s]. *)
Definition eq_str (v : json) (s : string) : bool :=
  match v with
  | JStr s' => String.eqb s' s
  | _ => false
  end.

Definition decimal (n : Z) : string := NilZero.string_of_int (Z.to_int n).

(** [str(v)], as an f-string field renders it. The text of a list or a
    dict is produced by [repr], which is left to the caller. *)
Definition py_str (repr : json -> string) (v : json) : string :=
  match v with
  | JNull => "None"
  | JBool true => "True"
  | JBool false => "False"
  | JNum n => decimal n
  | JStr s => s
  | _ => repr v
  end.

(** ** Dates and times *)

Record date : Type := mkdate { year : Z; month : Z; day : Z }.

Record datetime : Type := mkdatetime {
  on : date; hour : Z; minute : Z; second : Z; microsecond : Z }.

Definition date_eqb (a b : date) : bool :=
  Z.eqb (year a) (year b) && Z.eqb (month a) (month b) && Z.eqb (day a) (day b).

Definition is_leap (y : Z) : bool :=
  (Z.eqb (y mod 4) 0 && negb (Z.eqb (y mod 100) 0)) || Z.eqb (y mod 400) 0.

Definition days_in_month (y m : Z) : Z :=
  if Z.eqb m 2 then (if is_leap y then 29 else 28)
  else if Z.eqb m 4 || Z.eqb m 6 || Z.eqb m 9 || Z.eqb m 11 then 30
  else 31.

(** The day after [d]; past 9999-12-31 the date type overflows. *)
Definition next_day (d : date) : result date :=
  if Z.ltb (day d) (days_in_month (year d) (month d))
  then Ok (mkdate (year d) (month d) (day d + 1))
  else if Z.ltb (month d) 12
  then Ok (mkdate (year d) (month d + 1) 1)
  else if Z.ltb (year d) 9999
  then Ok (mkdate (year d + 1) 1 1)
  else Raise OverflowError.

Fixpoint add_days (n : nat) (d : date) : result date :=
  match n with
  | O => Ok d
  | S n' => d' <- next_day d ;; add_days n' d'
  end.

(** [t + timedelta(hours=h, minutes=m)] for a non-negative delta. *)
Definition add_timedelta (t : datetime) (h m : Z) : result datetime :=
  let total := (hour t * 60 + minute t + h * 60 + m)%Z in
  d <- add_days (Z.to_nat (total / 1440)) (on t) ;;
  Ok (mkdatetime d ((total mod 1440) / 60) (total mod 60) (second t) (microsecond t)).

Definition pad2 (n : Z) : string :=
  if Z.ltb n 10 then "0" ++ decimal n else decimal n.

(** [t.strftime("%I:%M %p")]: 12-hour clock, zero padded. *)
Definition strftime_I_M_p (t : datetime) : string :=
  let h12 := (hour t mod 12)%Z in
  pad2 (if Z.eqb h12 0 then 12 else h12) ++ ":" ++ pad2 (minute t) ++ " "
    ++ (if Z.ltb (hour t) 12 then "AM" else "PM").

(** A reading of [datetime.strptime(s, "%Y-%m-%dT%H:%M:%S.%fZ")] on ASCII
    input: four-digit year, one- or two-digit month, day, hour, minute and
    second, one to six fraction digits, the whole string consumed, and the
    result checked to be a real calendar instant. The pipeline itself is
    stated for any parser; this one runs the examples. *)
Definition digit_of (c : ascii) : option Z :=
  let n := Z.of_nat (nat_of_ascii c) in
  if Z.leb 48 n && Z.leb n 57 then Some (n - 48)%Z else None.

Fixpoint span_digits (s : string) : list Z * string :=
  match s with
  | EmptyString => ([], EmptyString)
  | String c rest =>
      match digit_of c with
      | Some d => let (ds, r) := span_digits rest in (d :: ds, r)
      | None => ([], s)
      end
  end.

Definition number (ds : list Z) : Z := fold_left (fun a d => (a * 10 + d)%Z) ds 0%Z.

(** A run of [wmin..wmax] digits whose value lies in [lo..hi]. *)
Definition field (wmin wmax : nat) (lo hi : Z) (s : string) : result (Z * nat * string) :=
  let (ds, r) := span_digits s in
  let w := List.length ds in
  if Nat.leb wmin w && Nat.leb w wmax && Z.leb lo (number ds) && Z.leb (number ds) hi
  then Ok (number ds, w, r)
  else Raise ValueError.

Definition literal (lower upper : ascii) (s : string) : result string :=
  match s with
  | String c rest =>
      if Ascii.eqb c lower || Ascii.eqb c upper then Ok rest else Raise ValueError
  | EmptyString => Raise ValueError
  end.

Definition strptime_gitlab (s : string) : result datetime :=
  '(yy, _, s) <- field 4 4 0 9999 s ;;
  s <- literal "-" "-" s ;;
  '(mo, _, s) <- field 1 2 1 12 s ;;
  s <- literal "-" "-" s ;;
  '(dd, _, s) <- field 1 2 1 31 s ;;
  s <- literal "t" "T" s ;;
  '(hh, _, s) <- field 1 2 0 23 s ;;
  s <- literal ":" ":" s ;;
  '(mi, _, s) <- field 1 2 0 59 s ;;
  s <- literal ":" ":" s ;;
  '(ss, _, s) <- field 1 2 0 61 s ;;
  s <- literal "." "." s ;;
  '(f, w, s) <- field 1 6 0 999999 s ;;
  s <- literal "z" "Z" s ;;
  if String.eqb s "" && Z.leb 1 yy && Z.leb dd (days_in_month yy mo) && Z.leb ss 59
  then Ok (mkdatetime (mkdate yy mo dd) hh mi ss (f * 10 ^ Z.of_nat (6 - w))%Z)
  else Raise ValueError.

(** ** The HTTP client *)

(** A [requests.Response]: the status code and the decoded body, [None]
    when the body is not JSON. *)
Record response : Type := mkresponse { status_code : Z; body : option json }.

(** [resp.ok]: false exactly when [raise_for_status] would raise, that
    is for a 4xx or 5xx status. *)
Definition ok (resp : response) : bool :=
  negb (Z.leb 400 (status_code resp) && Z.ltb (status_code resp) 600).

Definition resp_json (resp : response) : result json :=
  match body resp with
  | Some j => Ok j
  | None => Raise JSONDecodeError
  end.

(** Code that talks to the server runs against the list of URLs
    requested so far, and may raise. *)
Definition M (A : Type) : Type := list string -> result A * list string.

Definition mret {A} (a : A) : M A := fun log => (Ok a, log).

Definition mbind {A B} (c : M A) (k : A -> M B) : M B :=
  fun log =>
    match c log with
    | (Ok a, log') => k a log'
    | (Raise e, log') => (Raise e, log')
    end.

Definition lift {A} (r : result A) : M A := fun log => (r, log).

Notation "x <~ e ;; k" := (mbind e (fun x => k))
  (at level 61, e at next level, right associativity) : py_scope.
Notation "' pat <~ e ;; k" := (mbind e (fun x => match x with pat => k end))
  (at level 61, pat pattern, e at next level, right associativity) : py_scope.

(** ** Column operations of the data-frame library *)

(** Lists and dicts cannot be hashed. *)
Definition hashable (v : json) : bool :=
  match v with
  | JArr _ | JObj _ => false
  | _ => true
  end.

Definition notnull (v : json) : bool :=
  match v with
  | JNull => false
  | _ => true
  end.

Definition as_number (v : json) : option Z :=
  match v with
  | JBool true => Some 1%Z
  | JBool false => Some 0%Z
  | JNum n => Some n
  | _ => None
  end.

(** [a == b] on hashable values: [True == 1] and [False == 0]. *)
Definition py_eqb (a b : json) : bool :=
  match a, b with
  | JNull, JNull => true
  | JStr s, JStr t => String.eqb s t
  | _, _ =>
      match as_number a, as_number b with
      | Some x, Some y => Z.eqb x y
      | _, _ => false
      end
  end.

Fixpoint tally (v : json) (counts : list (json * nat)) : list (json * nat) :=
  match counts with
  | [] => [(v, 1)]
  | (k, c) :: rest => if py_eqb k v then (k, S c) :: rest else (k, c) :: tally v rest
  end.

(** [Counter(values)]: keys in order of first occurrence. *)
Definition Counter (values : list json) : result (list (json * nat)) :=
  if forallb hashable values
  then Ok (fold_left (fun counts v => tally v counts) values [])
  else Raise TypeError.

(** [Series.nunique()]: the distinct values, missing ones dropped. *)
Definition nunique (col : list json) : result nat :=
  counts <- Counter col ;;
  Ok (List.length (filter (fun kc => notnull (fst kc)) counts)).

Fixpoint insert_by {A} (le : A -> A -> bool) (x : A) (l : list A) : list A :=
  match l with
  | [] => [x]
  | y :: rest => if le x y then x :: l else y :: insert_by le x rest
  end.

Definition sort_by {A} (le : A -> A -> bool) (l : list A) : list A :=
  fold_right (insert_by le) [] l.

Definition is_str (v : json) : bool :=
  match v with JStr _ => true | _ => false end.

Definition is_number (v : json) : bool :=
  match as_number v with Some _ => true | None => false end.

Definition str_le (a b : json) : bool :=
  match a, b with
  | JStr s, JStr t => String.leb s t
  | _, _ => true
  end.

Definition num_le (a b : json) : bool :=
  match as_number a, as_number b with
  | Some x, Some y => Z.leb x y
  | _, _ => true
  end.

(** The modes come back sorted: strings in string order, numbers by
    value. What becomes of a mix of the two differs between versions of
    the library and is left to [mixed]. *)
Definition try_sort (mixed : list json -> list json) (values : list json)
  : list json :=
  if forallb is_str values then sort_by str_le values
  else if forallb is_number values then sort_by num_le values
  else mixed values.

(** [Series.mode()]: the most frequent non-missing values, sorted. *)
Definition mode (mixed : list json -> list json) (col : list json)
  : result (list json) :=
  counts <- Counter (filter notnull col) ;;
  let top := fold_right Nat.max 0 (map snd counts) in
  Ok (try_sort mixed (map fst (filter (fun kc => Nat.eqb (snd kc) top) counts))).

(** [series[0]] on the default integer index. *)
Definition first (values : list json) : result json :=
  match values with
  | v :: _ => Ok v
  | [] => Raise KeyError
  end.

(** ** The dashboard *)

Definition GITLAB_API : string := "https://code.swecha.org/api/v4".

Definition newline : string := String (ascii_of_nat 10) EmptyString.

(** The dict appended to [push_events], keys "project", "branch", "time". *)
Record push_event : Type := mkpush { project : json; branch : json; time : string }.

(** The dict appended to [activity_data], keys "Project", "Branch", "Time". *)
Record entry : Type := mkentry { Project : json; Branch : json; Time : string }.

(** The dict appended to [results], keys "username", "push_events",
    "activity". *)
Record row : Type := mkrow {
  row_username : string; row_push_events : nat; row_activity : string }.

(** What the single-user tab puts on the page; the charts and the sorted
    copy made for the timeline are display only. *)
Inductive page : Type :=
| NoInput
| UserNotFound
| NoPushEvents
| Summary (activity_data : list entry) (proj_count : list (json * nat))
    (total : nat) (unique_projects : nat) (most_active : json).

(** ** Vocabulary of the specification *)




Section Dashboard.

(** The server, as [requests.get(url, headers=HEADERS)] sees it. *)
Variable remote : string -> result response.
(** [datetime.strptime(s, "%Y-%m-%dT%H:%M:%S.%fZ")]. *)
Variable strptime : string -> result datetime.
(** The module-level [today_ist], fixed when the script starts. *)
Variable today_ist : date.
(** [repr] of lists and dicts. *)
Variable repr : json -> string.
(** The order the data-frame library gives to modes of mixed types. *)
Variable sort_mixed : list json -> list json.

Definition requests_get (url : string) : M response :=
  fun log => (remote url, log ++ [url]).

(** The three f-string URLs. *)
Definition users_url (username : string) : string :=
  GITLAB_API ++ "/users?username=" ++ username.

Definition events_url (user_id : json) : string :=
  GITLAB_API ++ "/users/" ++ py_str repr user_id ++ "/events".

Definition project_url (project_id : json) : string :=
  GITLAB_API ++ "/projects/" ++ py_str repr project_id.

Definition parse_created_at (v : json) : result datetime :=
  match v with
  | JStr s => strptime s
  | _ => Raise TypeError
  end.

(** The body of [for event in events] in [fetch_user_events]. *)
Fixpoint push_loop (events : list json) (push_events : list push_event)
  : result (list push_event) :=
  match events with
  | [] => Ok push_events
  | event :: rest =>
      action_name <- getitem event "action_name" ;;
      if eq_str action_name "pushed to" then
        created_at <- getitem event "created_at" ;;
        parsed <- parse_created_at created_at ;;
        event_time <- add_timedelta parsed 5 30 ;;
        if date_eqb (on event_time) today_ist then
          project_id <- getitem event "project_id" ;;
          push_data <- getitem event "push_data" ;;
          ref <- dict_get push_data "ref" JNull ;;
          push_loop rest
            (push_events ++ [mkpush project_id ref (strftime_I_M_p event_time)])
        else push_loop rest push_events
      else push_loop rest push_events
  end.

Definition fetch_user_events (username : string) : M (json * list push_event) :=
  resp <~ requests_get (users_url username) ;;
  no_user <~ lift (if negb (ok resp) then Ok true
                   else j <- resp_json resp ;; Ok (negb (truthy j))) ;;
  if no_user then mret (JNull, [])
  else
    users <~ lift (resp_json resp) ;;
    user <~ lift (getitem_int users 0) ;;
    user_id <~ lift (getitem user "id") ;;
    events_resp <~ requests_get (events_url user_id) ;;
    if negb (ok events_resp) then mret (user_id, [])
    else
      events <~ lift (resp_json events_resp) ;;
      items <~ lift (py_iter events) ;;
      push_events <~ lift (push_loop items []) ;;
      mret (user_id, push_events).

Definition resolve_project_name (project_id : json) : M json :=
  project_resp <~ requests_get (project_url project_id) ;;
  if ok project_resp then
    j <~ lift (resp_json project_resp) ;;
    lift (dict_get j "name" (JStr "Unknown"))
  else if Z.eqb (status_code project_resp) 404 then
    mret (JStr "Project not found or private")
  else if Z.eqb (status_code project_resp) 403 then
    mret (JStr "Access denied")
  else mret (JStr "Unknown").

(** *** Bulk tab *)

Definition activity_line (event : push_event) (project_name : json) : string :=
  "Pushed to '" ++ py_str repr (branch event) ++ "' in '"
    ++ py_str repr project_name ++ "' at " ++ time event.

Fixpoint activity_log_loop (events : list push_event) (activity_log : list string)
  : M (list string) :=
  match events with
  | [] => mret activity_log
  | event :: rest =>
      project_name <~ resolve_project_name (project event) ;;
      activity_log_loop rest (activity_log ++ [activity_line event project_name])
  end.

Definition activity_text (activity_log : list string) : string :=
  match activity_log with
  | [] => "No push events today."
  | _ => String.concat newline activity_log
  end.

Fixpoint tab1_loop (usernames : list string) (results : list row) : M (list row) :=
  match usernames with
  | [] => mret results
  | username :: rest =>
      '(user_id, events) <~ fetch_user_events username ;;
      activity_log <~ activity_log_loop events [] ;;
      tab1_loop rest
        (results ++ [mkrow username (List.length events) (activity_text activity_log)])
  end.

Definition tab1 (usernames : list string) : M (list row) := tab1_loop usernames [].

(** *** Single-user tab *)

Fixpoint activity_data_loop (events : list push_event) (activity_data : list entry)
  : M (list entry) :=
  match events with
  | [] => mret activity_data
  | event :: rest =>
      project_name <~ resolve_project_name (project event) ;;
      activity_data_loop rest
        (activity_data ++ [mkentry project_name (branch event) (time event)])
  end.

Definition tab2 (username : string) : M page :=
  if String.eqb username "" then mret NoInput else
  '(user_id, events) <~ fetch_user_events username ;;
  match user_id with
  | JNull => mret UserNotFound
  | _ =>
      match events with
      | [] => mret NoPushEvents
      | _ =>
          activity_data <~ activity_data_loop events [] ;;
          proj_count <~ lift (Counter (map Project activity_data)) ;;
          unique_projects <~ lift (nunique (map Project activity_data)) ;;
          modes <~ lift (mode sort_mixed (map Project activity_data)) ;;
          most_active <~ lift (first modes) ;;
          mret (Summary activity_data proj_count (List.length events)
                  unique_projects most_active)
      end
  end.

(** *** Vocabulary for the properties *)

(** The local (IST) instant of a raw event. *)
Definition local_time (event : json) : result datetime :=
  created_at <- getitem event "created_at" ;;
  parsed <- parse_created_at created_at ;;
  add_timedelta parsed 5 30.

Definition is_push (event : json) : bool :=
  match getitem event "action_name" with
  | Ok action_name => eq_str action_name "pushed to"
  | Raise _ => false
  end.

Definition on_target_date (event : json) : bool :=
  match local_time event with
  | Ok t => date_eqb (on t) today_ist
  | Raise _ => false
  end.

(** A raw event the filter is meant to keep. *)
Definition qualifies (event : json) : bool := is_push event && on_target_date event.

(** The loop body runs through on [event] without raising. *)
Definition well_formed (event : json) : bool :=
  match getitem event "action_name" with
  | Raise _ => false
  | Ok action_name =>
      if eq_str action_name "pushed to" then
        match local_time event with
        | Raise _ => false
        | Ok t =>
            if date_eqb (on t) today_ist then
              match getitem event "project_id",
                    (push_data <- getitem event "push_data" ;;
                     dict_get push_data "ref" JNull) with
              | Ok _, Ok _ => true
              | _, _ => false
              end
            else true
        end
      else true
  end.

(** [p] is the push event built from the raw [event]. *)
Definition push_of (event : json) (p : push_event) : Prop :=
  getitem event "project_id" = Ok (project p)
  /\ (exists push_data, getitem event "push_data" = Ok push_data
        /\ dict_get push_data "ref" JNull = Ok (branch p))
  /\ (exists t, local_time event = Ok t /\ time p = strftime_I_M_p t).

(** The account lookup answers with an error status or with nothing. *)
Definition lookup_fails (username : string) : Prop :=
  exists resp, remote (users_url username) = Ok resp
    /\ (ok resp = false \/ exists j, body resp = Some j /\ truthy j = false).

(** The account resolves to [user_id], and the event request for it
    answers with an error status. *)
Definition events_fail (username : string) (user_id : json) : Prop :=
  exists resp users user events_resp,
    remote (users_url username) = Ok resp /\ ok resp = true
    /\ body resp = Some users /\ truthy users = true
    /\ getitem_int users 0 = Ok user /\ getitem user "id" = Ok user_id
    /\ remote (events_url user_id) = Ok events_resp /\ ok events_resp = false.

(** The name the server's answer for [project_id] resolves to. *)
Definition resolves_to (project_id name : json) : Prop :=
  fst (resolve_project_name project_id []) = Ok name.

Definition activity_lines (events : list push_event) (names : list json)
  : list string :=
  map (fun en => activity_line (fst en) (snd en)) (combine events names).

Definition entries_of (events : list push_event) (names : list json)
  : list entry :=
  map (fun en => mkentry (snd en) (branch (fst en)) (time (fst en)))
      (combine events names).


(** One turn of the bulk loop, on its own. *)
Definition user_row (username : string) : M row :=
  '(user_id, events) <~ fetch_user_events username ;;
  activity_log <~ activity_log_loop events [] ;;
  mret (mkrow username (List.length events) (activity_text activity_log)).

End Dashboard.

Arguments users_url : simpl never.
Arguments events_url : simpl never.
Arguments project_url : simpl never.

(** A computation is transparent when its result does not depend on the
    requests made before it, which it only extends. *)
Definition transparent {A} (c : M A) : Prop :=
  forall log, c log = (fst (c []), log ++ snd (c [])).

(** ** Counting vocabulary *)




(** The most frequent name as the specification words it: among the
    names with the highest count, the one met first. *)
Definition spec_most_active (names : list string) : option string :=
  let top := fold_right Nat.max 0 (map (count_occ string_dec names) names) in
  find (fun x => Nat.eqb (count_occ string_dec names x) top) names.

(** Minutes since midnight of a "%I:%M %p" text, the key the timeline
    orders by. *)
Definition clock_key (s : string) : Z :=
  let (hs, r) := span_digits s in
  let (ms, r') := span_digits (substring 1 (String.length r - 1) r) in
  let h12 := (number hs mod 12)%Z in
  ((if String.eqb r' " PM" then h12 + 12 else h12) * 60 + number ms)%Z.

Definition sorted_by_time (entries : list entry) : Prop :=
  forall i j a b, (i < j)%nat -> nth_error entries i = Some a ->
    nth_error entries j = Some b -> (clock_key (Time a) <= clock_key (Time b))%Z.

(** [counts] tallies the column of strings [names]: one key per
    distinct name, with the number of its occurrences. *)
Definition counts_for (names : list string) (counts : list (json * nat)) : Prop :=
  NoDup (map fst counts)
  /\ (forall v c, In (v, c) counts ->
        exists k, v = JStr k /\ In k names /\ c = count_occ string_dec names k)
  /\ (forall k, In k names -> In (JStr k, count_occ string_dec names k) counts).

(** How many times [url] was requested. *)
Definition lookups (url : string) (log : list string) : nat :=
  count_occ string_dec log url.

Definition page_entries (p : page) : list entry :=
  match p with
  | Summary activity_data _ _ _ _ => activity_data
  | _ => []
  end.


Definition page_most_active (p : page) : option json :=
  match p with
  | Summary _ _ _ _ most_active => Some most_active
  | _ => None
  end.

(** ** A small server to run the code against *)

Module Demo.

Definition today : date := mkdate 2024 3 5.

Definition repr (v : json) : string := "[...]".

Definition sort_mixed (values : list json) : list json := values.

Definition pushed (project_id : Z) (ref created_at : string) : json :=
  JObj [("action_name", JStr "pushed to"); ("created_at", JStr created_at);
        ("project_id", JNum project_id); ("push_data", JObj [("ref", JStr ref)])].

Definition commented (created_at : string) : json :=
  JObj [("action_name", JStr "commented on"); ("created_at", JStr created_at);
        ("project_id", JNum 1)].

(** A push whose payload carries no ref. *)
Definition pushed_no_ref : json :=
  JObj [("action_name", JStr "pushed to");
        ("created_at", JStr "2024-03-05T05:30:00.000Z");
        ("project_id", JNum 1); ("push_data", JObj [])].

(** A push with no payload at all. *)
Definition pushed_no_payload : json :=
  JObj [("action_name", JStr "pushed to");
        ("created_at", JStr "2024-03-05T05:30:00.000Z");
        ("project_id", JNum 1)].

Definition alice_events : list json :=
  [pushed 1 "main" "2024-03-05T05:30:00.000Z";
   commented "2024-03-05T04:00:00.000Z";
   pushed 3 "dev" "2024-03-05T03:30:00.000Z";
   pushed 1 "main" "2024-03-04T10:00:00.000Z"].

Definition mallory_events : list json :=
  [pushed 1 "main" "2024-03-05T08:00:00.000Z";
   pushed 1 "main" "yesterday";
   pushed 3 "main" "2024-03-05T05:00:00.000Z"].

Definition account (id : Z) (username : string) : result response :=
  Ok (mkresponse 200 (Some (JArr [JObj [("id", JNum id); ("username", JStr username)]]))).

Definition listing (events : list json) : result response :=
  Ok (mkresponse 200 (Some (JArr events))).

Definition named (name : string) : result response :=
  Ok (mkresponse 200 (Some (JObj [("id", JNum 0); ("name", JStr name)]))).

Definition failed (status : Z) : result response :=
  Ok (mkresponse status (Some (JObj [("message", JStr "error")]))).

Definition routes : list (string * result response) :=
  [ ("/users?username=alice", account 7 "alice");
    ("/users/7/events",
      listing alice_events);
    ("/users?username=ghost", Ok (mkresponse 200 (Some (JArr []))));
    ("/users?username=dana", account 8 "dana");
    ("/users/8/events",
      listing [pushed 1 "main" "2024-03-05T08:00:00.000Z";
               pushed 1 "main" "2024-03-05T07:00:00.000Z";
               pushed 2 "main" "2024-03-05T06:00:00.000Z";
               pushed 3 "main" "2024-03-05T05:00:00.000Z"]);
    ("/users?username=erin", account 9 "erin");
    ("/users/9/events",
      listing [pushed 3 "main" "2024-03-05T08:00:00.000Z";
               pushed 1 "main" "2024-03-05T07:00:00.000Z";
               pushed 1 "main" "2024-03-05T06:00:00.000Z";
               pushed 3 "main" "2024-03-05T05:00:00.000Z"]);
    ("/users?username=mallory", account 11 "mallory");
    ("/users/11/events",
      listing mallory_events);
    ("/users?username=heidi", account 12 "heidi");
    ("/users/12/events", failed 500);
    ("/users?username=judy", failed 503);
    ("/users?username=offline", Raise ConnectionError);
    ("/users?username=trent", account 13 "trent");
    ("/users/13/events", Raise ReadTimeout);
    ("/projects/1", named "A");
    ("/projects/2", failed 404);
    ("/projects/3", named "B");
    ("/projects/4", failed 403);
    ("/projects/5", Ok (mkresponse 200 (Some (JObj [("id", JNum 5)]))));
    ("/projects/6", failed 500);
    ("/projects/9", Ok (mkresponse 200 (Some (JObj [("id", JNum 9); ("name", JNull)]))));
    ("/projects/10", Ok (mkresponse 200 None)) ].

Fixpoint route (url : string) (table : list (string * result response))
  : result response :=
  match table with
  | [] => failed 404
  | (path, answer) :: rest =>
      if String.eqb url (GITLAB_API ++ path) then answer else route url rest
  end.

Definition remote (url : string) : result response := route url routes.

End Demo.


(** ** The filter in the words of the specification *)

(** The calendar day, five hours and thirty minutes east of UTC, of the
    UTC instant [t]: its own day before 18:30, the day after from then
    on. *)
Definition ist_day (t : datetime) : result date :=
  if Z.ltb (hour t * 60 + minute t) (18 * 60 + 30) then Ok (on t)
  else next_day (on t).

(** The 12-hour clock text of the UTC instant [t] five hours and thirty
    minutes later: thirty minutes on, with the hour they may carry, and
    five hours on, around the clock. *)
Definition ist_clock_text (t : datetime) : string :=
  strftime_I_M_p
    (mkdatetime (on t) ((hour t + 5 + (minute t + 30) / 60) mod 24)
       ((minute t + 30) mod 60) (second t) (microsecond t)).

(** The UTC instant a raw event was created at. *)
Definition created_at_utc (strptime : string -> result datetime) (event : json)
  : result datetime :=
  created_at <- getitem event "created_at" ;;
  parse_created_at strptime created_at.

(** The event is classified "pushed to" and its instant falls on the
    report date in the +5:30 zone. *)
Definition pushed_on_report_date (strptime : string -> result datetime)
    (today_ist : date) (event : json) : bool :=
  is_push event
  && match created_at_utc strptime event with
     | Ok t =>
         match ist_day t with
         | Ok d => date_eqb d today_ist
         | Raise _ => false
         end
     | Raise _ => false
     end.

(** [p] carries the project and the branch of the raw [event] and the
    local clock text of its instant. *)
Definition kept_as (strptime : string -> result datetime)
    (event : json) (p : push_event) : Prop :=
  getitem event "project_id" = Ok (project p)
  /\ (exists push_data, getitem event "push_data" = Ok push_data
        /\ dict_get push_data "ref" JNull = Ok (branch p))
  /\ (exists t, created_at_utc strptime event = Ok t /\ time p = ist_clock_text t).

(** ** The timeline and the printable report *)

(** The hour and the minute lie on the clock face. *)
Definition valid_clock (t : datetime) : Prop :=
  (0 <= hour t < 24)%Z /\ (0 <= minute t < 60)%Z.

Definition is_space (c : ascii) : bool :=
  let n := nat_of_ascii c in
  Nat.eqb n 32 || (Nat.leb 9 n && Nat.leb n 13).

Fixpoint skip_spaces (s : string) : string :=
  match s with
  | String c rest => if is_space c then skip_spaces rest else s
  | EmptyString => s
  end.

(** A blank in a format stands for one or more blanks in the text. *)
Definition blanks (s : string) : result string :=
  match s with
  | String c rest => if is_space c then Ok (skip_spaces rest) else Raise ValueError
  | EmptyString => Raise ValueError
  end.

(** [pd.to_datetime(s, format='%I:%M %p')] on one cell, reduced to the
    hour and the minute of the result (its date is always 1900-01-01). *)
Definition to_datetime_I_M_p (s : string) : result (Z * Z) :=
  '(h12, _, s) <- field 1 2 1 12 s ;;
  s <- literal ":" ":" s ;;
  '(mi, _, s) <- field 1 2 0 59 s ;;
  s <- blanks s ;;
  match s with
  | String c1 (String c2 EmptyString) =>
      if Ascii.eqb c2 "m" || Ascii.eqb c2 "M" then
        if Ascii.eqb c1 "a" || Ascii.eqb c1 "A" then Ok ((h12 mod 12)%Z, mi)
        else if Ascii.eqb c1 "p" || Ascii.eqb c1 "P" then Ok ((h12 mod 12 + 12)%Z, mi)
        else Raise ValueError
      else Raise ValueError
  | _ => Raise ValueError
  end.

(** The calls made on the [FPDF] object, in order. *)
Inductive pdf_op : Type :=
| AddPage
| SetFont (family : string) (size : Z)
| SetTextColor (r g b : Z)
| Cell (w h : Z) (txt : string) (ln : bool)
| Ln (h : Z).

(** [s.split("\n")]: one piece more than there are newlines. *)
Fixpoint split_newline (s : string) : list string :=
  match s with
  | EmptyString => [EmptyString]
  | String c rest =>
      if Ascii.eqb c (ascii_of_nat 10) then EmptyString :: split_newline rest
      else
        match split_newline rest with
        | piece :: pieces => String c piece :: pieces
        | [] => [String c EmptyString]
        end
  end.

Fixpoint has_newline (s : string) : bool :=
  match s with
  | EmptyString => false
  | String c rest => Ascii.eqb c (ascii_of_nat 10) || has_newline rest
  end.

(** The inner loop of [generate_pdf]: one cell per activity. *)
Fixpoint pdf_activities (activities : list string) (pdf : list pdf_op) : list pdf_op :=
  match activities with
  | [] => pdf
  | act :: rest => pdf_activities rest (pdf ++ [Cell 200 10 act true])
  end.

(** The loop of [generate_pdf] over the rows of the table. *)
Fixpoint pdf_rows (dataframe : list row) (pdf : list pdf_op) : list pdf_op :=
  match dataframe with
  | [] => pdf
  | r :: rest =>
      let pdf := pdf ++ [SetTextColor 0 0 0] in
      let pdf := pdf ++ [Cell 200 10 ("Username: " ++ row_username r)%string true] in
      let pdf := pdf ++ [Cell 200 10
                   ("Push Events: " ++ decimal (Z.of_nat (row_push_events r)))%string
                   true] in
      let activities := split_newline (row_activity r) in
      let pdf := pdf_activities activities pdf in
      pdf_rows rest (pdf ++ [Ln 5])
  end.

(** [generate_pdf]; [render] stands for [pdf.output(dest='S')] encoded
    and wrapped in a buffer, which is the business of the PDF library. *)
Definition generate_pdf {buffer : Type} (render : list pdf_op -> buffer)
    (dataframe : list row) : buffer :=
  render (pdf_rows dataframe [AddPage; SetFont "Arial" 12]).

(** The texts of the cells, in the order they are printed. *)
Fixpoint cell_texts (pdf : list pdf_op) : list string :=
  match pdf with
  | [] => []
  | Cell _ _ txt _ :: rest => txt :: cell_texts rest
  | _ :: rest => cell_texts rest
  end.

(** What the report shows for a row whose activity log is [lines]. *)
Definition report_block (r : row) (lines : list string) : list string :=
  ("Username: " ++ row_username r)%string
  :: ("Push Events: " ++ decimal (Z.of_nat (row_push_events r)))%string
  :: match lines with
     | [] => ["No push events today."]
     | _ => lines
     end.

(** The line of the bulk table that tells what the entry [e] of the user
    page tells. *)
Definition entry_line (repr : json -> string) (e : entry) : string :=
  "Pushed to '" ++ py_str repr (Branch e) ++ "' in '"
    ++ py_str repr (Project e) ++ "' at " ++ Time e.

(** * Properties *)

(** ** Columns of strings *)

Section Columns.

Lemma leb_trans (a b c : string) :
  String.leb a b = true -> String.leb b c = true -> String.leb a c = true.
Proof.
  unfold String.leb. intros Hab Hbc.
  destruct (String.compare a b) eqn:Eab; try discriminate;
    destruct (String.compare b c) eqn:Ebc; try discriminate;
    try apply String_as_OT.cmp_eq in Eab; try apply String_as_OT.cmp_eq in Ebc;
    subst; try (rewrite Eab; reflexivity); try (rewrite Ebc; reflexivity).
  - assert (E : String.compare c c = Eq) by now apply String_as_OT.cmp_eq.
    now rewrite E.
  - apply String_as_OT.cmp_lt in Eab, Ebc.
    pose proof (String_as_OT.lt_trans _ _ _ Eab Ebc) as H.
    apply String_as_OT.cmp_lt in H. unfold String_as_OT.cmp in H. now rewrite H.
Qed.

Lemma leb_false_flip (a b : string) :
  String.leb a b = false -> String.leb b a = true.
Proof.
  intros H. destruct (String.leb_total a b) as [H'|H']; congruence.
Qed.

Lemma insert_by_In {A} (le : A -> A -> bool) (x y : A) (l : list A) :
  In y (insert_by le x l) <-> y = x \/ In y l.
Proof.
  induction l as [|z rest IH]; simpl.
  - intuition.
  - destruct (le x z); simpl; [intuition | rewrite IH; intuition].
Qed.

Lemma sort_by_In {A} (le : A -> A -> bool) (y : A) (l : list A) :
  In y (sort_by le l) <-> In y l.
Proof.
  induction l as [|z rest IH]; simpl; [tauto|].
  rewrite insert_by_In, IH. intuition.
Qed.

Lemma insert_leb_sorted (x : string) (l : list string) :
  StronglySorted (fun a b => String.leb a b = true) l ->
  StronglySorted (fun a b => String.leb a b = true) (insert_by String.leb x l).
Proof.
  induction 1 as [|z rest Hs IH Hz]; simpl.
  - repeat constructor.
  - destruct (String.leb x z) eqn:E.
    + constructor; [now constructor|].
      constructor; [exact E|].
      rewrite Forall_forall in Hz |- *. intros y Hy.
      eapply leb_trans; eauto.
    + constructor; [exact IH|].
      rewrite Forall_forall in Hz |- *. intros y Hy.
      apply insert_by_In in Hy. destruct Hy as [->|Hy]; [|now apply Hz].
      now apply leb_false_flip.
Qed.

Lemma sort_leb_sorted (l : list string) :
  StronglySorted (fun a b => String.leb a b = true) (sort_by String.leb l).
Proof.
  induction l as [|z rest IH]; simpl; [constructor | now apply insert_leb_sorted].
Qed.

Lemma sort_by_strings (l : list string) :
  sort_by str_le (map JStr l) = map JStr (sort_by String.leb l).
Proof.
  induction l as [|z rest IH]; simpl; [reflexivity|].
  rewrite IH. generalize (sort_by String.leb rest) as s.
  induction s as [|y s IHs]; simpl; [reflexivity|].
  destruct (String.leb z y); simpl; [reflexivity | now rewrite IHs].
Qed.

(** The first of a sorted column of strings is its least element. *)
Lemma first_of_sorted_strings (l : list string) (v : json) :
  first (sort_by str_le (map JStr l)) = Ok v ->
  exists m, v = JStr m /\ In m l /\ forall x, In x l -> String.leb m x = true.
Proof.
  rewrite sort_by_strings. intros H.
  pose proof (sort_leb_sorted l) as Hs.
  pose proof (fun y => sort_by_In String.leb y l) as Hin.
  destruct (sort_by String.leb l) as [|m rest]; [discriminate|].
  simpl in H. injection H as <-. exists m. split; [reflexivity|].
  split; [apply Hin; now left|].
  intros x Hx. apply Hin in Hx. destruct Hx as [->|Hx].
  - destruct (String.leb_total x x); assumption.
  - apply StronglySorted_inv in Hs. destruct Hs as [_ Hm].
    rewrite Forall_forall in Hm. now apply Hm.
Qed.

Lemma strings_of (values : list json) :
  forallb is_str values = true -> exists ks, values = map JStr ks.
Proof.
  induction values as [|v rest IH]; simpl; intros H.
  - now exists [].
  - apply andb_prop in H. destruct H as [Hv Hr].
    destruct (IH Hr) as [ks ->]. destruct v; try discriminate.
    now exists (s :: ks).
Qed.

Lemma tally_spec (x : string) (counts : list (json * nat)) :
  (forall v c, In (v, c) counts -> is_str v = true) ->
  (~ In (JStr x) (map fst counts)
     /\ tally (JStr x) counts = counts ++ [(JStr x, 1)])
  \/ (exists pre c post,
        counts = pre ++ (JStr x, c) :: post
        /\ tally (JStr x) counts = pre ++ (JStr x, S c) :: post).
Proof.
  induction counts as [|[k c] rest IH]; intros Hstr.
  - left. split; [intros [] | reflexivity].
  - assert (Hk : is_str k = true) by (apply (Hstr k c); now left).
    destruct k as [| | |s| |]; try discriminate. cbn [tally py_eqb].
    destruct (String.eqb_spec s x) as [->|Hne].
    + right. now exists [], c, rest.
    + destruct IH as [[Hn Ht] | (pre & c0 & post & -> & Ht)].
      * intros v c' Hin. apply (Hstr v c'). now right.
      * left. rewrite Ht. split; [|reflexivity].
        cbn [map fst In]. intros [E|E]; [congruence | exact (Hn E)].
      * right. exists ((JStr s, c) :: pre), c0, post. rewrite Ht. now split.
Qed.

Lemma count_occ_snoc (l : list string) (x k : string) :
  count_occ string_dec (l ++ [x]) k
  = count_occ string_dec l k + (if string_dec x k then 1 else 0).
Proof.
  rewrite count_occ_app. cbn [count_occ]. now destruct (string_dec x k).
Qed.

Lemma counts_for_step (l : list string) (x : string) (counts : list (json * nat)) :
  counts_for l counts -> counts_for (l ++ [x]) (tally (JStr x) counts).
Proof.
  intros (Hnd & Hsound & Hcomplete).
  assert (Hstr : forall v c, In (v, c) counts -> is_str v = true).
  { intros v c Hin. destruct (Hsound v c Hin) as (k & -> & _). reflexivity. }
  destruct (tally_spec x counts Hstr) as [[Hnew ->] | (pre & c0 & post & -> & ->)].
  - assert (Hx : ~ In x l).
    { intros Hx. apply Hnew. apply Hcomplete in Hx.
      change (JStr x) with (fst (JStr x, count_occ string_dec l x)).
      now apply in_map. }
    repeat split.
    + rewrite map_app. cbn [map fst]. apply NoDup_app; [exact Hnd | | ].
      * repeat constructor. intros [].
      * intros a Ha [<-|[]]. contradiction.
    + intros v c Hin. apply in_app_iff in Hin. destruct Hin as [Hin|[E|[]]].
      * destruct (Hsound v c Hin) as (k & -> & Hk & ->).
        exists k. repeat split; [apply in_app_iff; now left|].
        rewrite count_occ_snoc. destruct (string_dec x k); [subst; contradiction | lia].
      * injection E as <- <-. exists x. repeat split; [apply in_app_iff; right; now left|].
        rewrite count_occ_snoc. rewrite (proj1 (count_occ_not_In string_dec l x) Hx).
        destruct (string_dec x x); [reflexivity | congruence].
    + intros k Hk. rewrite count_occ_snoc. apply in_app_iff.
      apply in_app_iff in Hk. destruct Hk as [Hk|[<-|[]]].
      * left. destruct (string_dec x k); [subst; contradiction|].
        rewrite Nat.add_0_r. now apply Hcomplete.
      * right. left. rewrite (proj1 (count_occ_not_In string_dec l x) Hx).
        destruct (string_dec x x); [reflexivity | congruence].
  - assert (Hc0 : c0 = count_occ string_dec l x).
    { destruct (Hsound (JStr x) c0) as (k & E & _ & ->).
      - apply in_app_iff. right. now left.
      - now injection E as <-. }
    assert (Hother : forall v c, In (v, c) (pre ++ post) -> v <> JStr x).
    { intros v c Hin ->. rewrite map_app in Hnd. cbn [map fst] in Hnd.
      apply NoDup_remove_2 in Hnd. apply Hnd. rewrite <- map_app.
      change (JStr x) with (fst (JStr x, c)). now apply in_map. }
    repeat split.
    + rewrite map_app in Hnd |- *. exact Hnd.
    + intros v c Hin. apply in_app_iff in Hin. cbn [In] in Hin.
      assert (Hcases : (JStr x, S c0) = (v, c) \/ In (v, c) (pre ++ post))
        by (rewrite in_app_iff; tauto).
      clear Hin. destruct Hcases as [E|Hin].
      * injection E as <- <-. exists x. repeat split; [apply in_app_iff; right; now left|].
        rewrite count_occ_snoc. destruct (string_dec x x); [lia | congruence].
      * pose proof (Hother v c Hin) as Hv.
        destruct (Hsound v c) as (k & -> & Hk & ->).
        { apply in_app_iff in Hin. apply in_app_iff. cbn [In]. tauto. }
        exists k. repeat split; [apply in_app_iff; now left|].
        rewrite count_occ_snoc. destruct (string_dec x k); [subst; congruence | lia].
    + intros k Hk. rewrite count_occ_snoc.
      destruct (string_dec x k) as [<-|Hne].
      * apply in_app_iff. right. left. f_equal. lia.
      * rewrite Nat.add_0_r.
        assert (Hk' : In k l).
        { apply in_app_iff in Hk. destruct Hk as [Hk|[E|[]]]; [exact Hk | congruence]. }
        apply Hcomplete in Hk'. apply in_app_iff in Hk'. apply in_app_iff.
        cbn [In] in Hk' |- *. destruct Hk' as [H|[E|H]]; [tauto | | tauto].
        injection E as E _. congruence.
Qed.

Lemma counts_for_fold (l2 : list string) :
  forall l1 counts,
    counts_for l1 counts ->
    counts_for (l1 ++ l2)
      (fold_left (fun counts v => tally v counts) (map JStr l2) counts).
Proof.
  induction l2 as [|x rest IH]; intros l1 counts H; cbn [map fold_left].
  - now rewrite app_nil_r.
  - replace (l1 ++ x :: rest) with ((l1 ++ [x]) ++ rest)
      by (now rewrite <- app_assoc).
    apply IH. now apply counts_for_step.
Qed.

Lemma Counter_strings (names : list string) :
  exists counts, Counter (map JStr names) = Ok counts /\ counts_for names counts.
Proof.
  unfold Counter.
  assert (H : forallb hashable (map JStr names) = true)
    by (induction names; simpl; auto).
  rewrite H. eexists. split; [reflexivity|].
  apply (counts_for_fold names [] []).
  repeat split; [constructor | intros v c [] | intros k []].
Qed.

Lemma keep_all {A} (f : A -> bool) (l : list A) :
  (forall a, In a l -> f a = true) -> filter f l = l.
Proof.
  induction l as [|a rest IH]; intros H; simpl; [reflexivity|].
  rewrite (H a (or_introl eq_refl)). f_equal. apply IH. intros b Hb. apply H. now right.
Qed.



Lemma max_is_upper_bound (c : nat) (l : list nat) :
  In c l -> c <= fold_right Nat.max 0 l.
Proof.
  induction l as [|d rest IH]; intros H; [destruct H|].
  cbn [fold_right]. destruct H as [->|H]; [lia|]. apply IH in H. lia.
Qed.

(** On a column of strings the first mode is a most frequent string,
    and among the most frequent ones the least. *)
Lemma first_mode_strings (mixed : list json -> list json)
    (names : list string) (modes : list json) (v : json) :
  mode mixed (map JStr names) = Ok modes ->
  first modes = Ok v ->
  exists m, v = JStr m /\ In m names
    /\ (forall x, count_occ string_dec names x <= count_occ string_dec names m)
    /\ (forall x, count_occ string_dec names x = count_occ string_dec names m ->
          String.leb m x = true).
Proof.
  unfold mode. intros Hm Hv.
  rewrite keep_all in Hm
    by (intros a Ha; apply in_map_iff in Ha; destruct Ha as [k [<- _]]; reflexivity).
  destruct (Counter_strings names) as [counts [Hc Hf]].
  rewrite Hc in Hm. cbn [rbind] in Hm. injection Hm as <-.
  set (top := fold_right Nat.max 0 (map snd counts)) in *.
  set (tops := map fst (filter (fun kc => Nat.eqb (snd kc) top) counts)) in *.
  destruct Hf as (Hnd & Hsound & Hcomplete).
  assert (Htop : forall k c, In (JStr k, c) counts -> c <= top).
  { intros k c Hin. apply max_is_upper_bound.
    change c with (snd (JStr k, c)). now apply in_map. }
  assert (Htops : forall k, In (JStr k) tops <->
                    In k names /\ count_occ string_dec names k = top).
  { intros k. unfold tops. rewrite in_map_iff. split.
    - intros [[v' c] [E Hin]]. cbn [fst] in E. subst v'.
      apply filter_In in Hin. destruct Hin as [Hin Hc']. cbn [snd] in Hc'.
      apply Nat.eqb_eq in Hc'. destruct (Hsound _ _ Hin) as (k' & E & Hk & ->).
      injection E as <-. now split.
    - intros [Hk Hc']. exists (JStr k, count_occ string_dec names k).
      split; [reflexivity|]. apply filter_In. split; [now apply Hcomplete|].
      cbn [snd]. now apply Nat.eqb_eq. }
  destruct (strings_of tops) as [ks Hks].
  { apply forallb_forall. intros v' Hv'. unfold tops in Hv'. apply in_map_iff in Hv'.
    destruct Hv' as [[v'' c] [<- Hin]]. apply filter_In in Hin. destruct Hin as [Hin _].
    destruct (Hsound _ _ Hin) as (k & -> & _). reflexivity. }
  assert (Hsort : try_sort mixed tops = sort_by str_le (map JStr ks)).
  { unfold try_sort. rewrite Hks.
    assert (H : forallb is_str (map JStr ks) = true)
      by (clear; induction ks; simpl; auto).
    now rewrite H. }
  rewrite Hsort in Hv. apply first_of_sorted_strings in Hv.
  destruct Hv as (m & -> & Hm & Hleast).
  assert (Hmt : In (JStr m) tops) by (rewrite Hks; now apply in_map).
  apply Htops in Hmt. destruct Hmt as [Hmn Hmc].
  exists m. repeat split; [exact Hmn | |].
  - intros x. rewrite Hmc.
    destruct (in_dec string_dec x names) as [Hx|Hx].
    + apply (Htop x). now apply Hcomplete.
    + rewrite (proj1 (count_occ_not_In string_dec names x) Hx). lia.
  - intros x Hx. apply Hleast.
    assert (Hxn : In x names).
    { apply (count_occ_In string_dec). rewrite Hx.
      now apply (count_occ_In string_dec). }
    assert (Hxt : In (JStr x) tops) by (apply Htops; split; [exact Hxn | congruence]).
    rewrite Hks in Hxt. apply in_map_iff in Hxt. destruct Hxt as [k [E Hk]].
    now injection E as ->.
Qed.

End Columns.

Section Properties.

Variable remote : string -> result response.
Variable strptime : string -> result datetime.
Variable today_ist : date.
Variable repr : json -> string.
Variable sort_mixed : list json -> list json.

(** ** The event filter *)

Lemma push_loop_acc (events : list json) :
  forall acc out,
    push_loop strptime today_ist events acc = Ok out ->
    exists kept, out = acc ++ kept
      /\ Forall2 (push_of strptime) (filter (qualifies strptime today_ist) events) kept.
Proof.
  induction events as [|event rest IH]; intros acc out H; simpl in H.
  - exists []. rewrite app_nil_r. split; [congruence | constructor].
  - unfold qualifies, is_push, on_target_date, local_time. simpl.
    destruct (getitem event "action_name") as [action_name|] eqn:Ha;
      simpl in H; [|discriminate].
    destruct (eq_str action_name "pushed to") eqn:Hp; simpl; [|now apply IH].
    destruct (getitem event "created_at") as [created_at|] eqn:Hc;
      simpl in H |- *; [|discriminate].
    destruct (parse_created_at strptime created_at) as [parsed|] eqn:Hparse;
      simpl in H |- *; [|discriminate].
    destruct (add_timedelta parsed 5 30) as [event_time|] eqn:Hadd;
      simpl in H |- *; [|discriminate].
    destruct (date_eqb (on event_time) today_ist) eqn:Hd; [|now apply IH].
    destruct (getitem event "project_id") as [project_id|] eqn:Hpid;
      simpl in H; [|discriminate].
    destruct (getitem event "push_data") as [push_data|] eqn:Hpd;
      simpl in H; [|discriminate].
    destruct (dict_get push_data "ref" JNull) as [ref|] eqn:Href;
      simpl in H; [|discriminate].
    apply IH in H. destruct H as [kept [-> HF]].
    exists (mkpush project_id ref (strftime_I_M_p event_time) :: kept).
    rewrite <- app_assoc. split; [reflexivity|].
    constructor; [|exact HF].
    unfold push_of, local_time; simpl. repeat split.
    + exact Hpid.
    + exists push_data. now split.
    + exists event_time. rewrite Hc; simpl. rewrite Hparse; simpl. now split.
Qed.

Lemma push_loop_returns (events : list json) :
  forall acc,
    forallb (well_formed strptime today_ist) events = true <->
    exists out, push_loop strptime today_ist events acc = Ok out.
Proof.
  induction events as [|event rest IH]; intros acc; simpl.
  - split; [eauto | reflexivity].
  - unfold well_formed, local_time.
    destruct (getitem event "action_name") as [action_name|]; simpl;
      [|split; [discriminate | intros [out H]; discriminate]].
    destruct (eq_str action_name "pushed to"); [|apply IH].
    destruct (getitem event "created_at") as [created_at|]; simpl;
      [|split; [discriminate | intros [out H]; discriminate]].
    destruct (parse_created_at strptime created_at) as [parsed|]; simpl;
      [|split; [discriminate | intros [out H]; discriminate]].
    destruct (add_timedelta parsed 5 30) as [event_time|]; simpl;
      [|split; [discriminate | intros [out H]; discriminate]].
    destruct (date_eqb (on event_time) today_ist); [|apply IH].
    destruct (getitem event "project_id") as [project_id|]; simpl;
      [|split; [discriminate | intros [out H]; discriminate]].
    destruct (getitem event "push_data") as [push_data|]; simpl;
      [|split; [discriminate | intros [out H]; discriminate]].
    destruct (dict_get push_data "ref" JNull) as [ref|]; simpl;
      [|split; [discriminate | intros [out H]; discriminate]].
    apply IH.
Qed.


(** C6, as the code has it. A push of the report date whose payload
    is a dict without a ref is kept, and its branch is [None], which is
    not the empty string. When the payload itself is missing, reading
    it raises [KeyError] and the loop has no output. *)
Theorem push_without_ref_has_branch_None
    (event : json) (rest : list json) (acc : list push_event)
    (action_name project_id : json) (t : datetime) :
  getitem event "action_name" = Ok action_name ->
  eq_str action_name "pushed to" = true ->
  local_time strptime event = Ok t ->
  date_eqb (on t) today_ist = true ->
  getitem event "project_id" = Ok project_id ->
  (forall fields,
     getitem event "push_data" = Ok (JObj fields) ->
     dict_lookup "ref" fields = None ->
     push_loop strptime today_ist (event :: rest) acc
     = push_loop strptime today_ist rest
         (acc ++ [mkpush project_id JNull (strftime_I_M_p t)]))
  /\ (getitem event "push_data" = Raise KeyError ->
      push_loop strptime today_ist (event :: rest) acc = Raise KeyError).
Proof.
  intros Ha Hp Ht Hd Hpid. unfold local_time in Ht. simpl.
  rewrite Ha; simpl. rewrite Hp.
  destruct (getitem event "created_at") as [created_at|]; simpl in Ht |- *;
    [|discriminate].
  destruct (parse_created_at strptime created_at) as [parsed|];
    simpl in Ht |- *; [|discriminate].
  rewrite Ht; simpl. rewrite Hd, Hpid; simpl.
  split.
  - intros fields Hpd Href. rewrite Hpd; simpl. now rewrite Href.
  - intros Hpd. now rewrite Hpd.
Qed.


(** ** Requests *)

Lemma transparent_ret {A} (a : A) : transparent (mret a).
Proof. intros log. unfold mret. simpl. now rewrite app_nil_r. Qed.

Lemma transparent_lift {A} (r : result A) : transparent (lift r).
Proof. intros log. unfold lift. simpl. now rewrite app_nil_r. Qed.

Lemma transparent_get (url : string) : transparent (requests_get remote url).
Proof. intros log. reflexivity. Qed.

Lemma transparent_bind {A B} (c : M A) (k : A -> M B) :
  transparent c -> (forall a, transparent (k a)) -> transparent (mbind c k).
Proof.
  intros Hc Hk log. unfold mbind. rewrite (Hc log).
  destruct (c []) as [[a|e] l0]; simpl; [|reflexivity].
  rewrite (Hk a (log ++ l0)), (Hk a l0). simpl. now rewrite app_assoc.
Qed.

Ltac transparency :=
  repeat first
    [ apply transparent_ret
    | apply transparent_lift
    | apply transparent_get
    | apply transparent_bind; [|intros]
    | match goal with
      | |- transparent (if ?b then _ else _) => destruct b
      | |- transparent (match ?x with _ => _ end) => destruct x
      end ].

Lemma transparent_fetch (username : string) :
  transparent (fetch_user_events remote strptime today_ist repr username).
Proof. unfold fetch_user_events. transparency. Qed.

Lemma transparent_resolve (project_id : json) :
  transparent (resolve_project_name remote repr project_id).
Proof. unfold resolve_project_name. transparency. Qed.

Lemma resolve_log (project_id : json) (log : list string) :
  snd (resolve_project_name remote repr project_id log)
  = log ++ [project_url repr project_id].
Proof.
  unfold resolve_project_name, mbind, requests_get, lift, mret.
  destruct (remote (project_url repr project_id)) as [resp|]; [|reflexivity].
  destruct (ok resp).
  - destruct (resp_json resp); reflexivity.
  - destruct (Z.eqb (status_code resp) 404); [reflexivity|].
    destruct (Z.eqb (status_code resp) 403); reflexivity.
Qed.

(** C2, as the code has it. Every call of [resolve_project_name] sends
    one request for the project, whatever was requested before: there
    is no cache. A second call for the same project repeats the
    request, so the project has been looked up twice more than before
    the two calls. *)
Theorem resolve_project_name_asks_every_time
    (project_id : json) (log : list string) :
  snd (resolve_project_name remote repr project_id log)
  = log ++ [project_url repr project_id]
  /\ forall name log1,
      resolve_project_name remote repr project_id log = (Ok name, log1) ->
      snd (resolve_project_name remote repr project_id log1)
      = log ++ [project_url repr project_id; project_url repr project_id]
      /\ lookups (project_url repr project_id)
           (snd (resolve_project_name remote repr project_id log1))
         = lookups (project_url repr project_id) log + 2.
Proof.
  split; [apply resolve_log|].
  intros name log1 H.
  pose proof (resolve_log project_id log) as Hl. rewrite H in Hl. cbn [snd] in Hl.
  subst log1. rewrite resolve_log, <- app_assoc. cbn [app]. split; [reflexivity|].
  generalize (project_url repr project_id) as url. intros url.
  unfold lookups. rewrite count_occ_app. cbn [count_occ].
  destruct (string_dec url url); [lia | congruence].
Qed.

(** C10, as the code has it. A successful lookup whose body is a dict
    without "name" resolves to "Unknown", the very text of the
    unclassified failure; every 4xx or 5xx answer resolves to one of
    the three fixed texts; a successful lookup returns the "name" entry
    of the body as it is, which is a string only when the server sent
    one. *)
Theorem resolve_project_name_labels
    (project_id : json) (log : list string) (resp : response) :
  remote (project_url repr project_id) = Ok resp ->
  (ok resp = true -> forall fields,
     body resp = Some (JObj fields) ->
     fst (resolve_project_name remote repr project_id log)
     = Ok (match dict_lookup "name" fields with
           | Some name => name
           | None => JStr "Unknown"
           end))
  /\ (ok resp = false ->
      fst (resolve_project_name remote repr project_id log)
      = Ok (JStr (if Z.eqb (status_code resp) 404 then "Project not found or private"
                  else if Z.eqb (status_code resp) 403 then "Access denied"
                  else "Unknown"))).
Proof.
  intros Hr. unfold resolve_project_name, mbind, requests_get, lift, mret.
  rewrite Hr. split.
  - intros Hok fields Hb. rewrite Hok. unfold resp_json. rewrite Hb. simpl.
    destruct (dict_lookup "name" fields); reflexivity.
  - intros Hok. rewrite Hok.
    destruct (Z.eqb (status_code resp) 404); [reflexivity|].
    destruct (Z.eqb (status_code resp) 403); reflexivity.
Qed.

(** ** Failing lookups and the bulk report *)

Lemma fetch_lookup_fails (username : string) (log : list string) :
  lookup_fails remote username ->
  fetch_user_events remote strptime today_ist repr username log
  = (Ok (JNull, []), log ++ [users_url username]).
Proof.
  intros [resp [Hr H]].
  unfold fetch_user_events, mbind, requests_get, lift, mret. rewrite Hr.
  destruct H as [Hok | [j [Hb Ht]]].
  - now rewrite Hok.
  - destruct (ok resp); [|reflexivity]. cbn [negb].
    unfold resp_json. rewrite Hb. cbn [rbind]. now rewrite Ht.
Qed.

Lemma fetch_events_fail (username : string) (user_id : json) (log : list string) :
  events_fail remote repr username user_id ->
  fetch_user_events remote strptime today_ist repr username log
  = (Ok (user_id, []), log ++ [users_url username; events_url repr user_id]).
Proof.
  intros (resp & users & user & events_resp & Hr & Hok & Hb & Ht & Hu & Hid & He & Heok).
  unfold fetch_user_events, mbind, requests_get, lift, mret. rewrite Hr.
  rewrite Hok. cbn [negb]. unfold resp_json. rewrite Hb. cbn [rbind].
  rewrite Ht. cbn [negb]. rewrite Hu, Hid, He, Heok. cbn [negb].
  now rewrite <- app_assoc.
Qed.

Lemma tab1_loop_no_events
    (username : string) (user_id : json) (log log1 : list string)
    (rest : list string) (results : list row) :
  fetch_user_events remote strptime today_ist repr username log
  = (Ok (user_id, []), log1) ->
  tab1_loop remote strptime today_ist repr (username :: rest) results log
  = tab1_loop remote strptime today_ist repr rest
      (results ++ [mkrow username 0 "No push events today."]) log1.
Proof.
  intros H. cbn [tab1_loop]. unfold mbind at 1. rewrite H. reflexivity.
Qed.

(** C8, as the code has it. When the account lookup is answered with
    a 4xx or 5xx status, or with an empty body, the user id is [None],
    the event list is empty and no event request is sent. When the
    account resolves and the event request is answered with a 4xx or
    5xx status, the event list is empty. In both cases the bulk loop
    records a row with zero pushes and goes on with the next username.
    (A request that raises is not covered: nothing catches it.) *)
Theorem http_failures_yield_no_events (username : string) (log : list string) :
  (lookup_fails remote username ->
     fetch_user_events remote strptime today_ist repr username log
     = (Ok (JNull, []), log ++ [users_url username]))
  /\ (forall user_id,
       events_fail remote repr username user_id ->
       fetch_user_events remote strptime today_ist repr username log
       = (Ok (user_id, []), log ++ [users_url username; events_url repr user_id]))
  /\ (lookup_fails remote username
       \/ (exists user_id, events_fail remote repr username user_id) ->
      forall rest results,
        tab1_loop remote strptime today_ist repr (username :: rest) results log
        = tab1_loop remote strptime today_ist repr rest
            (results ++ [mkrow username 0 "No push events today."])
            (snd (fetch_user_events remote strptime today_ist repr username log))).
Proof.
  split; [apply fetch_lookup_fails|]. split; [intros; now apply fetch_events_fail|].
  intros [H | [user_id H]] rest results.
  - apply fetch_lookup_fails with (log := log) in H.
    rewrite H. cbn [snd]. eapply tab1_loop_no_events; eauto.
  - apply fetch_events_fail with (log := log) in H.
    rewrite H. cbn [snd]. eapply tab1_loop_no_events; eauto.
Qed.

Lemma activity_log_loop_spec (events : list push_event) :
  forall acc log lines log',
    activity_log_loop remote repr events acc log = (Ok lines, log') ->
    exists names,
      Forall2 (resolves_to remote repr) (map project events) names
      /\ lines = acc ++ activity_lines repr events names.
Proof.
  induction events as [|event rest IH]; intros acc log lines log' H.
  - exists []. split; [constructor|]. unfold activity_lines. cbn [combine map].
    rewrite app_nil_r. cbn in H. unfold mret in H. congruence.
  - cbn [activity_log_loop] in H. unfold mbind at 1 in H.
    pose proof (transparent_resolve (project event) log) as Ht.
    destruct (resolve_project_name remote repr (project event) log)
      as [[name|e] l1]; [|discriminate].
    apply IH in H. destruct H as [names [HF ->]].
    exists (name :: names). split.
    + cbn [map]. constructor; [|exact HF]. unfold resolves_to. congruence.
    + unfold activity_lines. cbn [combine map fst snd]. now rewrite <- app_assoc.
Qed.

Lemma activity_data_loop_spec (events : list push_event) :
  forall acc log data log',
    activity_data_loop remote repr events acc log = (Ok data, log') ->
    exists names,
      Forall2 (resolves_to remote repr) (map project events) names
      /\ data = acc ++ entries_of events names.
Proof.
  induction events as [|event rest IH]; intros acc log data log' H.
  - exists []. split; [constructor|]. unfold entries_of. cbn [combine map].
    rewrite app_nil_r. cbn in H. unfold mret in H. congruence.
  - cbn [activity_data_loop] in H. unfold mbind at 1 in H.
    pose proof (transparent_resolve (project event) log) as Ht.
    destruct (resolve_project_name remote repr (project event) log)
      as [[name|e] l1]; [|discriminate].
    apply IH in H. destruct H as [names [HF ->]].
    exists (name :: names). split.
    + cbn [map]. constructor; [|exact HF]. unfold resolves_to. congruence.
    + unfold entries_of. cbn [combine map fst snd]. now rewrite <- app_assoc.
Qed.

Lemma transparent_activity_log_loop (events : list push_event) :
  forall acc, transparent (activity_log_loop remote repr events acc).
Proof.
  induction events as [|event rest IH]; intros acc; cbn [activity_log_loop].
  - apply transparent_ret.
  - apply transparent_bind; [apply transparent_resolve | intros; apply IH].
Qed.

Lemma transparent_user_row (username : string) :
  transparent (user_row remote strptime today_ist repr username).
Proof.
  unfold user_row. apply transparent_bind; [apply transparent_fetch|].
  intros [user_id events].
  apply transparent_bind; [apply transparent_activity_log_loop|].
  intros; apply transparent_ret.
Qed.

Lemma tab1_loop_step (username : string) (rest : list string)
    (results : list row) (log : list string) :
  tab1_loop remote strptime today_ist repr (username :: rest) results log
  = mbind (user_row remote strptime today_ist repr username)
      (fun r => tab1_loop remote strptime today_ist repr rest (results ++ [r])) log.
Proof.
  cbn [tab1_loop]. unfold user_row, mbind.
  destruct (fetch_user_events remote strptime today_ist repr username log)
    as [[[user_id events]|e] l1]; [|reflexivity].
  destruct (activity_log_loop remote repr events [] l1) as [[lines|e] l2];
    reflexivity.
Qed.

Lemma tab1_loop_spec (usernames : list string) :
  forall results log rows log',
    tab1_loop remote strptime today_ist repr usernames results log = (Ok rows, log') ->
    exists new, rows = results ++ new
      /\ Forall2 (fun u r => fst (user_row remote strptime today_ist repr u []) = Ok r)
           usernames new.
Proof.
  induction usernames as [|username rest IH]; intros results log rows log' H.
  - exists []. rewrite app_nil_r. cbn in H. unfold mret in H.
    split; [congruence | constructor].
  - rewrite tab1_loop_step in H. unfold mbind in H.
    pose proof (transparent_user_row username log) as Ht.
    destruct (user_row remote strptime today_ist repr username log)
      as [[r|e] l1]; [|discriminate].
    apply IH in H. destruct H as [new [-> HF]].
    exists (r :: new). rewrite <- app_assoc. split; [reflexivity|].
    constructor; [congruence | exact HF].
Qed.

Lemma tab1_loop_total (usernames : list string) :
  Forall (fun u => exists r, fst (user_row remote strptime today_ist repr u []) = Ok r)
    usernames ->
  forall results log, exists rows log',
    tab1_loop remote strptime today_ist repr usernames results log = (Ok rows, log').
Proof.
  induction 1 as [|username rest [r Hr] _ IH]; intros results log.
  - exists results, log. reflexivity.
  - rewrite tab1_loop_step. unfold mbind.
    rewrite (transparent_user_row username log), Hr. apply IH.
Qed.

Lemma user_row_shape (username : string) (r : row) :
  fst (user_row remote strptime today_ist repr username []) = Ok r ->
  exists user_id events names,
    fst (fetch_user_events remote strptime today_ist repr username [])
    = Ok (user_id, events)
    /\ Forall2 (resolves_to remote repr) (map project events) names
    /\ r = mkrow username (List.length events)
             (activity_text (activity_lines repr events names)).
Proof.
  unfold user_row, mbind. intros H.
  destruct (fetch_user_events remote strptime today_ist repr username [])
    as [[[user_id events]|e] l1]; [|discriminate].
  destruct (activity_log_loop remote repr events [] l1) as [[lines|e] l2] eqn:Hl;
    [|discriminate].
  apply activity_log_loop_spec in Hl. destruct Hl as [names [HF ->]].
  exists user_id, events, names. cbn in H. repeat split; [exact HF | congruence].
Qed.

Lemma user_row_lookup_fails (username : string) :
  lookup_fails remote username ->
  fst (user_row remote strptime today_ist repr username [])
  = Ok (mkrow username 0 "No push events today.").
Proof.
  intros H. unfold user_row, mbind.
  rewrite (fetch_lookup_fails username [] H). reflexivity.
Qed.

Lemma activity_text_lines (events : list push_event) (names : list json) :
  List.length names = List.length events ->
  activity_text (activity_lines repr events names)
  = match events with
    | [] => "No push events today."
    | _ => String.concat newline (activity_lines repr events names)
    end.
Proof.
  destruct events as [|event rest]; [reflexivity|].
  destruct names as [|name names]; [discriminate|]. reflexivity.
Qed.

(** C9, as the code has it. The bulk loop returns a table exactly when
    every user's turn runs through; when one raises there is no table.
    The table has one row per username, in the order of the input. Each
    row is the one its username yields on its own, whatever the other
    usernames are: it carries the username, the number of push events
    fetched for it, and either the fixed text "No push events today." or,
    joined by newlines, one line "Pushed to '<branch>' in '<project>' at
    <time>" per push event, with the name its project resolves to. A
    username whose lookup is answered with an error status or with
    nothing gets the row with zero pushes and the fixed text. *)
Theorem tab1_has_one_row_per_username (usernames : list string) (log : list string) :
  (Forall (fun u => exists r, fst (user_row remote strptime today_ist repr u []) = Ok r)
     usernames
   <-> exists rows log',
       tab1 remote strptime today_ist repr usernames log = (Ok rows, log'))
  /\ forall rows log',
      tab1 remote strptime today_ist repr usernames log = (Ok rows, log') ->
      map row_username rows = usernames
      /\ Forall2 (fun u r =>
            fst (user_row remote strptime today_ist repr u []) = Ok r
            /\ (lookup_fails remote u -> r = mkrow u 0 "No push events today.")
            /\ exists user_id events names,
                fst (fetch_user_events remote strptime today_ist repr u [])
                = Ok (user_id, events)
                /\ Forall2 (resolves_to remote repr) (map project events) names
                /\ r = mkrow u (List.length events)
                         match events with
                         | [] => "No push events today."
                         | _ =>
                             String.concat newline
                               (map (fun en =>
                                       ("Pushed to '" ++ py_str repr (branch (fst en))
                                        ++ "' in '" ++ py_str repr (snd en)
                                        ++ "' at " ++ time (fst en))%string)
                                  (combine events names))
                         end)
           usernames rows.
Proof.
  assert (Hspec : forall rows log',
    tab1 remote strptime today_ist repr usernames log = (Ok rows, log') ->
    Forall2 (fun u r => fst (user_row remote strptime today_ist repr u []) = Ok r)
      usernames rows).
  { intros rows log' H. apply tab1_loop_spec in H.
    destruct H as [new [-> HF]]. exact HF. }
  split.
  - split.
    + intros H. apply tab1_loop_total; assumption.
    + intros [rows [log' H]]. apply Hspec in H. clear Hspec.
      induction H as [|u r us rs Hr _ IH]; constructor; eauto.
  - intros rows log' H. apply Hspec in H. clear Hspec.
    induction H as [|u r us rs Hr _ IH].
    + split; constructor.
    + destruct IH as (IH1 & IH2).
      destruct (user_row_shape u r Hr) as (user_id & events & names & Hf & HF & Hrow).
      split.
      * cbn [map]. rewrite IH1. f_equal. rewrite Hrow. reflexivity.
      * constructor; [|exact IH2]. split; [exact Hr|]. split.
        { intros Hfail. pose proof (user_row_lookup_fails u Hfail) as Hu. congruence. }
        exists user_id, events, names. split; [exact Hf|]. split; [exact HF|].
        rewrite Hrow. f_equal.
        assert (Hlen : List.length names = List.length events).
        { apply Forall2_length in HF. now rewrite length_map in HF. }
        rewrite (activity_text_lines events names Hlen). reflexivity.
Qed.

(** ** The single-user page *)

Lemma entries_of_columns (events : list push_event) :
  forall names,
    List.length names = List.length events ->
    map Time (entries_of events names) = map time events
    /\ map Branch (entries_of events names) = map branch events
    /\ map Project (entries_of events names) = names.
Proof.
  unfold entries_of.
  induction events as [|event rest IH]; intros [|name names] Hlen;
    try discriminate; cbn [combine map fst snd Time Branch Project].
  - repeat split.
  - injection Hlen as Hlen. destruct (IH names Hlen) as (H1 & H2 & H3).
    now rewrite H1, H2, H3.
Qed.

Lemma tab2_summary (username : string) (log log' : list string)
    (data : list entry) (proj_count : list (json * nat))
    (total unique_projects : nat) (most_active : json) :
  tab2 remote strptime today_ist repr sort_mixed username log
  = (Ok (Summary data proj_count total unique_projects most_active), log') ->
  exists user_id events names modes,
    fst (fetch_user_events remote strptime today_ist repr username log)
    = Ok (user_id, events)
    /\ Forall2 (resolves_to remote repr) (map project events) names
    /\ data = entries_of events names
    /\ total = List.length events
    /\ Counter (map Project data) = Ok proj_count
    /\ nunique (map Project data) = Ok unique_projects
    /\ mode sort_mixed (map Project data) = Ok modes
    /\ first modes = Ok most_active.
Proof.
  intros H. unfold tab2 in H.
  destruct (String.eqb username ""); [discriminate|]. unfold mbind at 1 in H.
  destruct (fetch_user_events remote strptime today_ist repr username log)
    as [[[user_id events]|e] l1]; [|discriminate].
  assert (H' :
    (match events with
     | [] => mret NoPushEvents
     | _ =>
         activity_data <~ activity_data_loop remote repr events [] ;;
         proj_count <~ lift (Counter (map Project activity_data)) ;;
         unique_projects <~ lift (nunique (map Project activity_data)) ;;
         modes <~ lift (mode sort_mixed (map Project activity_data)) ;;
         most_active <~ lift (first modes) ;;
         mret (Summary activity_data proj_count (List.length events)
                 unique_projects most_active)
     end) l1
    = (Ok (Summary data proj_count total unique_projects most_active), log')).
  { destruct user_id; [discriminate H | exact H ..]. }
  clear H. destruct events as [|event rest]; [discriminate|].
  remember (event :: rest) as events eqn:He. clear He.
  unfold mbind, lift, mret in H'.
  destruct (activity_data_loop remote repr events [] l1) as [[ad|e] l2] eqn:Hl;
    [|discriminate].
  apply activity_data_loop_spec in Hl. destruct Hl as [names [HF Hd]].
  cbn [app] in Hd. subst ad.
  destruct (Counter (map Project (entries_of events names))) as [pc|] eqn:Hc;
    [|discriminate].
  destruct (nunique (map Project (entries_of events names))) as [n|] eqn:Hn;
    [|discriminate].
  destruct (mode sort_mixed (map Project (entries_of events names))) as [ms|] eqn:Hm;
    [|discriminate].
  destruct (first ms) as [m|] eqn:Hf; [|discriminate].
  injection H' as <- <- <- <- <- <-.
  exists user_id, events, names, ms. cbn [fst]. repeat split; assumption.
Qed.

(** C3, as the code has it. The entries of the activity summary are
    not sorted: they are the push events in the order in which
    [fetch_user_events] returned them (the order of the stream), one
    entry per event, with its time and branch. The code sorts nothing
    but a copy made for the timeline chart. *)
Theorem activity_entries_keep_event_order (username : string)
    (log log' : list string) (data : list entry) (proj_count : list (json * nat))
    (total unique_projects : nat) (most_active : json) :
  tab2 remote strptime today_ist repr sort_mixed username log
  = (Ok (Summary data proj_count total unique_projects most_active), log') ->
  exists user_id events,
    fst (fetch_user_events remote strptime today_ist repr username log)
    = Ok (user_id, events)
    /\ List.length data = List.length events
    /\ map Time data = map time events
    /\ map Branch data = map branch events.
Proof.
  intros H. apply tab2_summary in H.
  destruct H as (user_id & events & names & modes & Hf & HF & -> & _).
  assert (Hlen : List.length names = List.length events).
  { apply Forall2_length in HF. now rewrite length_map in HF. }
  destruct (entries_of_columns events names Hlen) as (H1 & H2 & _).
  exists user_id, events. repeat split; try assumption.
  rewrite <- (length_map Time), H1. apply length_map.
Qed.




Lemma transparent_activity_data_loop (events : list push_event) :
  forall acc, transparent (activity_data_loop remote repr events acc).
Proof.
  induction events as [|event rest IH]; intros acc; cbn [activity_data_loop].
  - apply transparent_ret.
  - apply transparent_bind; [apply transparent_resolve | intros; apply IH].
Qed.

Lemma transparent_tab2 (username : string) :
  transparent (tab2 remote strptime today_ist repr sort_mixed username).
Proof.
  unfold tab2. destruct (String.eqb username ""); [apply transparent_ret|].
  apply transparent_bind; [apply transparent_fetch|].
  intros [user_id events].
  assert (H : transparent
    (match events with
     | [] => mret NoPushEvents
     | _ =>
         activity_data <~ activity_data_loop remote repr events [] ;;
         proj_count <~ lift (Counter (map Project activity_data)) ;;
         unique_projects <~ lift (nunique (map Project activity_data)) ;;
         modes <~ lift (mode sort_mixed (map Project activity_data)) ;;
         most_active <~ lift (first modes) ;;
         mret (Summary activity_data proj_count (List.length events)
                 unique_projects most_active)
     end)).
  { destruct events as [|event rest]; [apply transparent_ret|].
    apply transparent_bind; [apply transparent_activity_data_loop|]. intros.
    repeat (apply transparent_bind; [apply transparent_lift|]; intros).
    apply transparent_ret. }
  destruct user_id; [apply transparent_ret | exact H ..].
Qed.

(** C5, as the code has it. The project reported as most active has
    the highest number of entries. When several projects share that
    number, the one reported is the least of them in string order (the
    modes come back sorted), wherever it occurs among the entries. The
    choice is a function of the input: it does not depend on what was
    requested before. *)
Theorem most_active_is_least_of_the_most_frequent (username : string)
    (log log' : list string) (data : list entry) (proj_count : list (json * nat))
    (total unique_projects : nat) (most_active : json) :
  tab2 remote strptime today_ist repr sort_mixed username log
  = (Ok (Summary data proj_count total unique_projects most_active), log') ->
  (forall names,
     map Project data = map JStr names ->
     exists m, most_active = JStr m /\ In m names
       /\ (forall x, count_occ string_dec names x <= count_occ string_dec names m)
       /\ (forall x, count_occ string_dec names x = count_occ string_dec names m ->
             String.leb m x = true))
  /\ forall log2,
      fst (tab2 remote strptime today_ist repr sort_mixed username log2)
      = Ok (Summary data proj_count total unique_projects most_active).
Proof.
  intros H. split.
  - apply tab2_summary in H.
    destruct H as (user_id & events & names0 & modes & _ & _ & _ & _ & _ & _ & Hm & Hf).
    intros names Hnames. rewrite Hnames in Hm.
    exact (first_mode_strings sort_mixed names modes most_active Hm Hf).
  - intros log2.
    rewrite (transparent_tab2 username log2). cbn [fst].
    rewrite (transparent_tab2 username log) in H. now injection H as ->.
Qed.

End Properties.

(** * The code at work on the small server *)

Section Runs.

Let remote := Demo.remote.
Let today := Demo.today.
Let repr := Demo.repr.

Example alice_and_ghost :
  fst (tab1 remote strptime_gitlab today repr ["alice"; "ghost"] [])
  = Ok [mkrow "alice" 2
          ("Pushed to 'main' in 'A' at 11:00 AM" ++ newline
             ++ "Pushed to 'dev' in 'B' at 09:00 AM");
        mkrow "ghost" 0 "No push events today."].
Proof. vm_compute. reflexivity. Qed.

End Runs.

Lemma resolve_project_name_asks_every_time_witness :
  snd (resolve_project_name Demo.remote Demo.repr (JNum 1)
         [project_url Demo.repr (JNum 1)])
  = [] ++ [project_url Demo.repr (JNum 1); project_url Demo.repr (JNum 1)].
Proof.
  exact (proj1 (proj2 (resolve_project_name_asks_every_time
                         Demo.remote Demo.repr (JNum 1) [])
                 (JStr "A") [project_url Demo.repr (JNum 1)]
                 ltac:(vm_compute; reflexivity))).
Defined.

(** C2: the bulk run for a user with two pushes to project 1 asks for
    that project twice. *)
Lemma second_lookup_is_not_cached :
  ~ (lookups (project_url Demo.repr (JNum 1))
       (snd (tab1 Demo.remote strptime_gitlab Demo.today Demo.repr ["dana"] [])) <= 1).
Proof. vm_compute. lia. Qed.

Lemma activity_entries_keep_event_order_witness :
  exists user_id events,
    fst (fetch_user_events Demo.remote strptime_gitlab Demo.today Demo.repr "alice" [])
    = Ok (user_id, events)
    /\ map time events = ["11:00 AM"; "09:00 AM"].
Proof.
  destruct (activity_entries_keep_event_order Demo.remote strptime_gitlab Demo.today
              Demo.repr Demo.sort_mixed "alice" [] _ _ _ _ _ _ ltac:(vm_compute; reflexivity))
    as (user_id & events & Hf & _ & Ht & _).
  exists user_id, events. split; [exact Hf|]. rewrite <- Ht. reflexivity.
Defined.

(** C3: the entries of alice's page are in the order of the stream,
    11:00 AM before 09:00 AM, which is not ascending. *)
Lemma alice_entries_are_not_sorted :
  exists p,
    fst (tab2 Demo.remote strptime_gitlab Demo.today Demo.repr Demo.sort_mixed "alice" []) = Ok p
    /\ map Time (page_entries p) = ["11:00 AM"; "09:00 AM"]
    /\ ~ sorted_by_time (page_entries p).
Proof.
  eexists. split; [vm_compute; reflexivity|]. split; [reflexivity|].
  intros H.
  specialize (H 0 1 _ _ ltac:(lia) eq_refl eq_refl). vm_compute in H.
  now apply H.
Qed.



Lemma most_active_is_least_of_the_most_frequent_witness :
  exists m, In m ["B"; "A"; "A"; "B"]
    /\ forall x, count_occ string_dec ["B"; "A"; "A"; "B"] x
                 = count_occ string_dec ["B"; "A"; "A"; "B"] m ->
         String.leb m x = true.
Proof.
  destruct (proj1 (most_active_is_least_of_the_most_frequent Demo.remote strptime_gitlab Demo.today
              Demo.repr Demo.sort_mixed "erin" [] _ _ _ _ _ _ ltac:(vm_compute; reflexivity))
              ["B"; "A"; "A"; "B"] eq_refl)
    as (m & _ & Hin & _ & Hleast).
  exists m. split; assumption.
Defined.

(** C5: erin's entries name B, A, A, B, in the order of the stream and
    in the order of their times alike. B and A both have two entries and
    B is met first; the page reports A. *)
Lemma most_active_is_not_the_first_seen :
  exists p,
    fst (tab2 Demo.remote strptime_gitlab Demo.today Demo.repr Demo.sort_mixed "erin" []) = Ok p
    /\ map Project (page_entries p) = map JStr ["B"; "A"; "A"; "B"]
    /\ map Project
         (sort_by (fun a b => Z.leb (clock_key (Time a)) (clock_key (Time b)))
            (page_entries p))
       = map JStr ["B"; "A"; "A"; "B"]
    /\ spec_most_active ["B"; "A"; "A"; "B"] = Some "B"
    /\ page_most_active p = Some (JStr "A").
Proof.
  eexists. split; [vm_compute; reflexivity|]. repeat split.
Qed.

Lemma push_without_ref_has_branch_None_witness :
  push_loop strptime_gitlab Demo.today [Demo.pushed_no_ref] []
  = Ok [mkpush (JNum 1) JNull "11:00 AM"]
  /\ push_loop strptime_gitlab Demo.today [Demo.pushed_no_payload] [] = Raise KeyError.
Proof.
  split.
  - exact (proj1 (push_without_ref_has_branch_None strptime_gitlab Demo.today
             Demo.pushed_no_ref [] [] (JStr "pushed to") (JNum 1)
             (mkdatetime (mkdate 2024 3 5) 11 0 0 0)
             eq_refl eq_refl ltac:(vm_compute; reflexivity) eq_refl eq_refl)
             [] eq_refl eq_refl).
  - exact (proj2 (push_without_ref_has_branch_None strptime_gitlab Demo.today
             Demo.pushed_no_payload [] [] (JStr "pushed to") (JNum 1)
             (mkdatetime (mkdate 2024 3 5) 11 0 0 0)
             eq_refl eq_refl ltac:(vm_compute; reflexivity) eq_refl eq_refl)
             eq_refl).
Defined.

(** C6: a push of the day whose payload has no ref is kept with the
    branch [None], not with the empty string; one without a payload
    makes the loop raise. *)
Lemma push_without_ref_gets_no_empty_branch :
  (forall p,
     push_loop strptime_gitlab Demo.today [Demo.pushed_no_ref] [] = Ok [p] ->
     branch p <> JStr "")
  /\ push_loop strptime_gitlab Demo.today [Demo.pushed_no_ref] []
     = Ok [mkpush (JNum 1) JNull "11:00 AM"]
  /\ push_loop strptime_gitlab Demo.today [Demo.pushed_no_payload] [] = Raise KeyError.
Proof.
  assert (H : push_loop strptime_gitlab Demo.today [Demo.pushed_no_ref] []
              = Ok [mkpush (JNum 1) JNull "11:00 AM"]) by (vm_compute; reflexivity).
  split; [|split].
  - intros p Hp. rewrite H in Hp. injection Hp as <-. discriminate.
  - exact H.
  - vm_compute. reflexivity.
Qed.



Lemma http_failures_yield_no_events_witness :
  fetch_user_events Demo.remote strptime_gitlab Demo.today Demo.repr "ghost" []
  = (Ok (JNull, []), [users_url "ghost"])
  /\ fetch_user_events Demo.remote strptime_gitlab Demo.today Demo.repr "heidi" []
     = (Ok (JNum 12, []), [users_url "heidi"; events_url Demo.repr (JNum 12)])
  /\ tab1_loop Demo.remote strptime_gitlab Demo.today Demo.repr ["judy"; "alice"] [] []
     = tab1_loop Demo.remote strptime_gitlab Demo.today Demo.repr ["alice"]
         [mkrow "judy" 0 "No push events today."] [users_url "judy"].
Proof.
  assert (Hghost : lookup_fails Demo.remote "ghost").
  { eexists. split; [reflexivity|]. right. eexists. split; reflexivity. }
  assert (Hjudy : lookup_fails Demo.remote "judy").
  { eexists. split; [reflexivity|]. left. reflexivity. }
  assert (Hheidi : events_fail Demo.remote Demo.repr "heidi" (JNum 12)).
  { do 4 eexists. repeat split; reflexivity. }
  split; [|split].
  - exact (proj1 (http_failures_yield_no_events Demo.remote strptime_gitlab Demo.today
                    Demo.repr "ghost" []) Hghost).
  - exact (proj1 (proj2 (http_failures_yield_no_events Demo.remote strptime_gitlab
                           Demo.today Demo.repr "heidi" [])) (JNum 12) Hheidi).
  - pose proof (proj2 (proj2 (http_failures_yield_no_events Demo.remote strptime_gitlab
                           Demo.today Demo.repr "judy" [])) (or_introl Hjudy)
                  ["alice"] []) as H.
    rewrite (proj1 (http_failures_yield_no_events Demo.remote strptime_gitlab Demo.today
                      Demo.repr "judy" []) Hjudy) in H.
    exact H.
Defined.

(** C8: a lookup that fails in transport raises out of the fetch and
    out of the bulk run, which returns no row for anyone; so does an
    event request that times out. *)
Lemma transport_error_aborts_the_run :
  Demo.remote (users_url "offline") = Raise ConnectionError
  /\ fst (fetch_user_events Demo.remote strptime_gitlab Demo.today Demo.repr "offline" [])
     = Raise ConnectionError
  /\ fst (tab1 Demo.remote strptime_gitlab Demo.today Demo.repr ["offline"; "alice"] [])
     = Raise ConnectionError
  /\ fst (fetch_user_events Demo.remote strptime_gitlab Demo.today Demo.repr "trent" [])
     = Raise ReadTimeout.
Proof. repeat (split; [vm_compute; reflexivity|]). vm_compute. reflexivity. Qed.

Lemma tab1_has_one_row_per_username_witness :
  exists rows,
    fst (tab1 Demo.remote strptime_gitlab Demo.today Demo.repr ["alice"; "ghost"] [])
    = Ok rows
    /\ map row_username rows = ["alice"; "ghost"].
Proof.
  destruct (tab1_has_one_row_per_username Demo.remote strptime_gitlab Demo.today
              Demo.repr ["alice"; "ghost"] []) as [[Hret _] Hrows].
  destruct Hret as (rows & log' & Hrun).
  { repeat constructor; eexists; vm_compute; reflexivity. }
  exists rows. rewrite Hrun. split; [reflexivity|].
  exact (proj1 (Hrows rows log' Hrun)).
Defined.

(** C9: alice alone gets her row; in a batch with a user whose lookup
    fails in transport the run raises and there is no row for anyone. *)
Lemma failing_user_leaves_no_row_for_anyone :
  fst (tab1 Demo.remote strptime_gitlab Demo.today Demo.repr ["alice"] [])
  = Ok [mkrow "alice" 2
          ("Pushed to 'main' in 'A' at 11:00 AM" ++ newline
             ++ "Pushed to 'dev' in 'B' at 09:00 AM")]
  /\ fst (tab1 Demo.remote strptime_gitlab Demo.today Demo.repr ["alice"; "offline"] [])
     = Raise ConnectionError
  /\ ~ (exists rows,
         fst (tab1 Demo.remote strptime_gitlab Demo.today Demo.repr
                ["alice"; "offline"] []) = Ok rows).
Proof.
  assert (H : fst (tab1 Demo.remote strptime_gitlab Demo.today Demo.repr
                     ["alice"; "offline"] []) = Raise ConnectionError)
    by (vm_compute; reflexivity).
  split; [vm_compute; reflexivity|]. split; [exact H|].
  intros [rows Hrows]. rewrite H in Hrows. discriminate.
Qed.

Lemma resolve_project_name_labels_witness :
  fst (resolve_project_name Demo.remote Demo.repr (JNum 5) []) = Ok (JStr "Unknown")
  /\ fst (resolve_project_name Demo.remote Demo.repr (JNum 6) []) = Ok (JStr "Unknown")
  /\ fst (resolve_project_name Demo.remote Demo.repr (JNum 2) [])
     = Ok (JStr "Project not found or private").
Proof.
  split; [|split].
  - exact (proj1 (resolve_project_name_labels Demo.remote Demo.repr (JNum 5) []
                    (mkresponse 200 (Some (JObj [("id", JNum 5)]))) eq_refl)
             eq_refl [("id", JNum 5)] eq_refl).
  - exact (proj2 (resolve_project_name_labels Demo.remote Demo.repr (JNum 6) []
                    (mkresponse 500 (Some (JObj [("message", JStr "error")]))) eq_refl)
             eq_refl).
  - exact (proj2 (resolve_project_name_labels Demo.remote Demo.repr (JNum 2) []
                    (mkresponse 404 (Some (JObj [("message", JStr "error")]))) eq_refl)
             eq_refl).
Defined.

(** C10: a successful answer whose "name" is null resolves to [None],
    which is no string, and a successful answer that is not JSON makes
    the resolution raise. *)
Lemma resolution_is_not_always_a_string :
  Demo.remote (project_url Demo.repr (JNum 9))
  = Ok (mkresponse 200 (Some (JObj [("id", JNum 9); ("name", JNull)])))
  /\ fst (resolve_project_name Demo.remote Demo.repr (JNum 9) []) = Ok JNull
  /\ (forall s, fst (resolve_project_name Demo.remote Demo.repr (JNum 9) [])
               <> Ok (JStr s))
  /\ fst (resolve_project_name Demo.remote Demo.repr (JNum 10) [])
     = Raise JSONDecodeError.
Proof.
  assert (H : fst (resolve_project_name Demo.remote Demo.repr (JNum 9) []) = Ok JNull)
    by (vm_compute; reflexivity).
  split; [vm_compute; reflexivity|]. split; [exact H|]. split.
  - intros s. rewrite H. discriminate.
  - vm_compute. reflexivity.
Qed.

(** * Further properties of the code *)

Section Filter.

Variable strptime : string -> result datetime.
Variable today_ist : date.

Lemma push_loop_bind (pre post : list json) :
  forall acc,
    push_loop strptime today_ist (pre ++ post) acc
    = (out <- push_loop strptime today_ist pre acc ;;
       push_loop strptime today_ist post out).
Proof.
  induction pre as [|event rest IH]; intros acc; [reflexivity|].
  cbn [app push_loop].
  destruct (getitem event "action_name") as [action_name|]; [|reflexivity].
  cbn [rbind]. destruct (eq_str action_name "pushed to"); [|apply IH].
  destruct (getitem event "created_at") as [created_at|]; [|reflexivity].
  cbn [rbind].
  destruct (parse_created_at strptime created_at) as [parsed|]; [|reflexivity].
  cbn [rbind]. destruct (add_timedelta parsed 5 30) as [event_time|]; [|reflexivity].
  cbn [rbind]. destruct (date_eqb (on event_time) today_ist); [|apply IH].
  destruct (getitem event "project_id") as [project_id|]; [|reflexivity].
  cbn [rbind]. destruct (getitem event "push_data") as [push_data|]; [|reflexivity].
  cbn [rbind]. destruct (dict_get push_data "ref" JNull) as [ref|]; [|reflexivity].
  cbn [rbind]. apply IH.
Qed.

Lemma push_loop_shift (events : list json) :
  forall acc,
    push_loop strptime today_ist events acc
    = (out <- push_loop strptime today_ist events [] ;; Ok (acc ++ out)).
Proof.
  induction events as [|event rest IH]; intros acc.
  - cbn [push_loop rbind]. now rewrite app_nil_r.
  - cbn [push_loop].
    destruct (getitem event "action_name") as [action_name|]; [|reflexivity].
    cbn [rbind]. destruct (eq_str action_name "pushed to"); [|apply IH].
    destruct (getitem event "created_at") as [created_at|]; [|reflexivity].
    cbn [rbind].
    destruct (parse_created_at strptime created_at) as [parsed|]; [|reflexivity].
    cbn [rbind]. destruct (add_timedelta parsed 5 30) as [event_time|]; [|reflexivity].
    cbn [rbind]. destruct (date_eqb (on event_time) today_ist); [|apply IH].
    destruct (getitem event "project_id") as [project_id|]; [|reflexivity].
    cbn [rbind]. destruct (getitem event "push_data") as [push_data|]; [|reflexivity].
    cbn [rbind]. destruct (dict_get push_data "ref" JNull) as [ref|]; [|reflexivity].
    cbn [rbind app].
    rewrite (IH (acc ++ [mkpush project_id ref (strftime_I_M_p event_time)])).
    rewrite (IH [mkpush project_id ref (strftime_I_M_p event_time)]).
    destruct (push_loop strptime today_ist rest []) as [out|]; [|reflexivity].
    cbn [rbind]. now rewrite <- app_assoc.
Qed.

(** X1. Filtering a stream made of two parts is filtering the first part,
    then the second, and putting the results end to end; an exception
    in the first part is the outcome of the whole, and the second part is
    only read when the first went through. *)
Theorem push_loop_of_two_parts (first_part second_part : list json) :
  push_loop strptime today_ist (first_part ++ second_part) []
  = (kept1 <- push_loop strptime today_ist first_part [] ;;
     kept2 <- push_loop strptime today_ist second_part [] ;;
     Ok (kept1 ++ kept2)).
Proof.
  rewrite push_loop_bind.
  destruct (push_loop strptime today_ist first_part []) as [kept1|]; [|reflexivity].
  cbn [rbind]. apply push_loop_shift.
Qed.

Lemma add_timedelta_ist (t : datetime) :
  valid_clock t ->
  add_timedelta t 5 30
  = if Z.ltb (hour t * 60 + minute t) 1110
    then Ok (mkdatetime (on t) ((hour t * 60 + minute t + 330) / 60)
               ((minute t + 30) mod 60) (second t) (microsecond t))
    else (d <- next_day (on t) ;;
          Ok (mkdatetime d ((hour t * 60 + minute t - 1110) / 60)
                ((minute t + 30) mod 60) (second t) (microsecond t))).
Proof.
  intros [Hh Hm]. unfold add_timedelta.
  assert (Hmin : ((hour t * 60 + minute t + 5 * 60 + 30) mod 60
                  = (minute t + 30) mod 60)%Z).
  { replace (hour t * 60 + minute t + 5 * 60 + 30)%Z
      with (minute t + 30 + (hour t + 5) * 60)%Z by lia.
    apply Z.mod_add. lia. }
  rewrite Hmin.
  destruct (Z.ltb_spec (hour t * 60 + minute t) 1110) as [Hlt|Hge].
  - rewrite (Z.div_small (hour t * 60 + minute t + 5 * 60 + 30) 1440) by lia.
    rewrite (Z.mod_small (hour t * 60 + minute t + 5 * 60 + 30) 1440) by lia.
    cbn [Z.to_nat add_days rbind].
    replace (hour t * 60 + minute t + 5 * 60 + 30)%Z
      with (hour t * 60 + minute t + 330)%Z by lia.
    reflexivity.
  - assert (Hq : ((hour t * 60 + minute t + 5 * 60 + 30) / 1440 = 1)%Z).
    { symmetry. apply (Z.div_unique _ _ 1 (hour t * 60 + minute t - 1110)); lia. }
    assert (Hr : ((hour t * 60 + minute t + 5 * 60 + 30) mod 1440
                  = hour t * 60 + minute t - 1110)%Z).
    { symmetry. apply (Z.mod_unique _ _ 1 (hour t * 60 + minute t - 1110)); lia. }
    rewrite Hq, Hr. change (Z.to_nat 1) with 1%nat. cbn [add_days].
    destruct (next_day (on t)); reflexivity.
Qed.

Lemma ist_hour (t : datetime) :
  valid_clock t ->
  (if Z.ltb (hour t * 60 + minute t) 1110
   then (hour t * 60 + minute t + 330) / 60
   else (hour t * 60 + minute t - 1110) / 60)%Z
  = ((hour t + 5 + (minute t + 30) / 60) mod 24)%Z.
Proof.
  intros [Hh Hm].
  assert (Hall :
    forallb (fun h => forallb (fun m =>
      Z.eqb (if Z.ltb (Z.of_nat h * 60 + Z.of_nat m) 1110
             then (Z.of_nat h * 60 + Z.of_nat m + 330) / 60
             else (Z.of_nat h * 60 + Z.of_nat m - 1110) / 60)
            ((Z.of_nat h + 5 + (Z.of_nat m + 30) / 60) mod 24))
      (seq 0 60)) (seq 0 24) = true) by (vm_compute; reflexivity).
  rewrite forallb_forall in Hall.
  specialize (Hall (Z.to_nat (hour t)) ltac:(apply in_seq; lia)).
  rewrite forallb_forall in Hall.
  specialize (Hall (Z.to_nat (minute t)) ltac:(apply in_seq; lia)).
  rewrite !Z2Nat.id in Hall by lia. now apply Z.eqb_eq in Hall.
Qed.

Lemma local_time_of_created_at (event : json) :
  local_time strptime event
  = (t <- created_at_utc strptime event ;; add_timedelta t 5 30).
Proof.
  unfold local_time, created_at_utc.
  destruct (getitem event "created_at"); reflexivity.
Qed.

Lemma local_time_ist (event : json) (t : datetime) :
  created_at_utc strptime event = Ok t ->
  valid_clock t ->
  local_time strptime event
  = (d <- ist_day t ;;
     Ok (mkdatetime d ((hour t + 5 + (minute t + 30) / 60) mod 24)
           ((minute t + 30) mod 60) (second t) (microsecond t))).
Proof.
  intros Hc Hv. rewrite local_time_of_created_at, Hc. cbn [rbind].
  rewrite (add_timedelta_ist t Hv). unfold ist_day.
  change (18 * 60 + 30)%Z with 1110%Z.
  pose proof (ist_hour t Hv) as Hh.
  destruct (Z.ltb (hour t * 60 + minute t) 1110); cbn [rbind]; rewrite Hh; reflexivity.
Qed.

Lemma created_at_clock (event : json) (t : datetime) :
  (forall s t, strptime s = Ok t -> valid_clock t) ->
  created_at_utc strptime event = Ok t -> valid_clock t.
Proof.
  intros Hvalid. unfold created_at_utc.
  destruct (getitem event "created_at") as [created_at|]; [|discriminate].
  cbn [rbind]. destruct created_at; try discriminate. cbn [parse_created_at].
  apply Hvalid.
Qed.

Lemma qualifies_in_words (event : json) :
  (forall s t, strptime s = Ok t -> valid_clock t) ->
  qualifies strptime today_ist event
  = pushed_on_report_date strptime today_ist event.
Proof.
  intros Hvalid. unfold qualifies, pushed_on_report_date, on_target_date.
  f_equal. destruct (created_at_utc strptime event) as [t|e] eqn:Hc.
  - rewrite (local_time_ist event t Hc (created_at_clock event t Hvalid Hc)).
    destruct (ist_day t); reflexivity.
  - rewrite local_time_of_created_at, Hc. reflexivity.
Qed.

Lemma push_of_in_words (event : json) (p : push_event) :
  (forall s t, strptime s = Ok t -> valid_clock t) ->
  push_of strptime event p -> kept_as strptime event p.
Proof.
  intros Hvalid (Hpid & Hbranch & t' & Ht' & Htime).
  split; [exact Hpid|]. split; [exact Hbranch|].
  destruct (created_at_utc strptime event) as [t|e] eqn:Hc.
  - exists t. split; [reflexivity|].
    rewrite (local_time_ist event t Hc (created_at_clock event t Hvalid Hc)) in Ht'.
    destruct (ist_day t) as [d|]; [|discriminate]. cbn [rbind] in Ht'.
    injection Ht' as <-. rewrite Htime. reflexivity.
  - rewrite local_time_of_created_at, Hc in Ht'. discriminate.
Qed.

(** C1, as the code has it. With a parser that returns clock times, the
    event loop of [fetch_user_events] has an output exactly on the
    streams all of whose events it can read. That output holds one push
    event for each raw event that is classified "pushed to" and whose
    UTC instant, moved five hours and thirty minutes on, falls on the
    report date, in the order of the stream and nothing else: it is
    never longer than the stream. The offset is the fixed 5:30 of the
    code. *)
Theorem push_loop_selects_pushes_of_the_day (events : list json) :
  (forall s t, strptime s = Ok t -> valid_clock t) ->
  (forallb (well_formed strptime today_ist) events = true <->
     exists out, push_loop strptime today_ist events [] = Ok out)
  /\ forall out,
      push_loop strptime today_ist events [] = Ok out ->
      Forall2 (kept_as strptime)
        (filter (pushed_on_report_date strptime today_ist) events) out
      /\ List.length out <= List.length events.
Proof.
  intros Hvalid. split; [apply push_loop_returns|].
  intros out H. apply push_loop_acc in H. destruct H as [kept [-> HF]]. cbn [app].
  rewrite (filter_ext _ _ (fun e => qualifies_in_words e Hvalid)) in HF.
  assert (HF' : Forall2 (kept_as strptime)
                  (filter (pushed_on_report_date strptime today_ist) events) kept).
  { revert HF. apply Forall2_impl. intros e p. now apply push_of_in_words. }
  split; [exact HF'|].
  rewrite <- (Forall2_length HF'). apply filter_length_le.
Qed.


Lemma add_timedelta_clock (t0 t : datetime) (h m : Z) :
  add_timedelta t0 h m = Ok t -> valid_clock t.
Proof.
  unfold add_timedelta. destruct (add_days _ (on t0)) as [d|]; [|discriminate].
  cbn [rbind]. intros H. injection H as <-. unfold valid_clock. cbn [hour minute].
  set (total := (hour t0 * 60 + minute t0 + h * 60 + m)%Z).
  pose proof (Z.mod_pos_bound total 1440 ltac:(lia)) as H1.
  pose proof (Z.mod_pos_bound total 60 ltac:(lia)) as H2.
  split; [|exact H2]. split.
  - apply Z.div_pos; lia.
  - apply Z.div_lt_upper_bound; lia.
Qed.

Lemma clock_round_trip (t : datetime) :
  valid_clock t ->
  to_datetime_I_M_p (strftime_I_M_p t) = Ok (hour t, minute t).
Proof.
  intros [Hh Hm].
  assert (Hall :
    forallb (fun h => forallb (fun m =>
      match to_datetime_I_M_p
              (strftime_I_M_p (mkdatetime (mkdate 0 0 0) (Z.of_nat h) (Z.of_nat m) 0 0))
      with
      | Ok (a, b) => Z.eqb a (Z.of_nat h) && Z.eqb b (Z.of_nat m)
      | Raise _ => false
      end) (seq 0 60)) (seq 0 24) = true) by (vm_compute; reflexivity).
  rewrite forallb_forall in Hall.
  specialize (Hall (Z.to_nat (hour t)) ltac:(apply in_seq; lia)).
  rewrite forallb_forall in Hall.
  specialize (Hall (Z.to_nat (minute t)) ltac:(apply in_seq; lia)).
  rewrite !Z2Nat.id in Hall by lia.
  change (strftime_I_M_p (mkdatetime (mkdate 0 0 0) (hour t) (minute t) 0 0))
    with (strftime_I_M_p t) in Hall.
  destruct (to_datetime_I_M_p (strftime_I_M_p t)) as [[a b]|]; [|discriminate].
  apply andb_prop in Hall. destruct Hall as [Ha Hb].
  apply Z.eqb_eq in Ha, Hb. now subst.
Qed.

(** X3. The time text of every push event the filter returns can be
    read back by the timeline's [to_datetime] with format "%I:%M %p",
    which never raises on it and finds an hour and a minute on the
    clock face. *)
Theorem timeline_reads_every_push_time (events : list json) (out : list push_event) :
  push_loop strptime today_ist events [] = Ok out ->
  Forall (fun p => exists h m,
            to_datetime_I_M_p (time p) = Ok (h, m)
            /\ (0 <= h < 24)%Z /\ (0 <= m < 60)%Z) out.
Proof.
  intros H. apply push_loop_acc in H. destruct H as [kept [-> HF]]. cbn [app].
  induction HF as [|event p es ps Hp _ IH]; constructor; [|exact IH].
  destruct Hp as (_ & _ & t & Ht & ->). unfold local_time in Ht.
  destruct (getitem event "created_at") as [created_at|]; [|discriminate].
  cbn [rbind] in Ht.
  destruct (parse_created_at strptime created_at) as [parsed|]; [|discriminate].
  cbn [rbind] in Ht. apply add_timedelta_clock in Ht.
  exists (hour t), (minute t). split; [now apply clock_round_trip|exact Ht].
Qed.

End Filter.

Section Requests.

Variable remote : string -> result response.
Variable strptime : string -> result datetime.
Variable today_ist : date.
Variable repr : json -> string.
Variable sort_mixed : list json -> list json.

(** X4. [fetch_user_events] sends one request or two and keeps what was
    requested before: always the account lookup, and after it at most
    the event request for the id of the first account in the answer.
    It never asks for a project. *)
Theorem fetch_sends_one_or_two_requests (username : string) (log : list string) :
  snd (fetch_user_events remote strptime today_ist repr username log)
  = log ++ [users_url username]
  \/ exists resp users user user_id,
       remote (users_url username) = Ok resp
       /\ body resp = Some users
       /\ getitem_int users 0 = Ok user
       /\ getitem user "id" = Ok user_id
       /\ snd (fetch_user_events remote strptime today_ist repr username log)
          = log ++ [users_url username; events_url repr user_id].
Proof.
  unfold fetch_user_events, mbind, requests_get, lift, mret.
  destruct (remote (users_url username)) as [resp|] eqn:Hr; [|now left].
  destruct (ok resp); cbn [negb]; [|now left].
  unfold resp_json. destruct (body resp) as [users|] eqn:Hb; cbn [rbind]; [|now left].
  destruct (truthy users); cbn [negb]; [|now left].
  destruct (getitem_int users 0) as [user|] eqn:Hu; [|now left].
  destruct (getitem user "id") as [user_id|] eqn:Hid; [|now left].
  right. exists resp, users, user, user_id. repeat (split; [assumption || reflexivity|]).
  rewrite <- app_assoc. cbn [app].
  destruct (remote (events_url repr user_id)) as [events_resp|]; [|reflexivity].
  destruct (ok events_resp); cbn [negb]; [|reflexivity].
  destruct (body events_resp) as [events|]; [|reflexivity].
  destruct (py_iter events) as [items|]; [|reflexivity].
  destruct (push_loop strptime today_ist items []); reflexivity.
Qed.

(** X5. Both report loops ask for the project of every push event, in
    the order of the events, once per event: a run that goes through has
    sent exactly one project request per event, repeated projects
    included. *)
Theorem one_project_request_per_push_event (events : list push_event) :
  (forall acc log lines log',
     activity_log_loop remote repr events acc log = (Ok lines, log') ->
     log' = log ++ map (fun e => project_url repr (project e)) events)
  /\ (forall acc log data log',
       activity_data_loop remote repr events acc log = (Ok data, log') ->
       log' = log ++ map (fun e => project_url repr (project e)) events).
Proof.
  split.
  - induction events as [|event rest IH]; intros acc log lines log' H.
    + cbn in H. unfold mret in H. injection H as _ <-. cbn [map]. now rewrite app_nil_r.
    + cbn [activity_log_loop] in H. unfold mbind at 1 in H.
      pose proof (resolve_log remote repr (project event) log) as Hl.
      destruct (resolve_project_name remote repr (project event) log)
        as [[name|e] l1]; [|discriminate].
      cbn [snd] in Hl. subst l1. apply IH in H. subst log'.
      cbn [map]. now rewrite <- app_assoc.
  - induction events as [|event rest IH]; intros acc log data log' H.
    + cbn in H. unfold mret in H. injection H as _ <-. cbn [map]. now rewrite app_nil_r.
    + cbn [activity_data_loop] in H. unfold mbind at 1 in H.
      pose proof (resolve_log remote repr (project event) log) as Hl.
      destruct (resolve_project_name remote repr (project event) log)
        as [[name|e] l1]; [|discriminate].
      cbn [snd] in Hl. subst l1. apply IH in H. subst log'.
      cbn [map]. now rewrite <- app_assoc.
Qed.

(** X6. On the single-user page a lookup that fails shows "User not
    found" after one request, and a failed event request for a resolved
    user shows the page of a day without pushes; in neither case is a
    project looked up. *)
Theorem failing_requests_on_the_user_page (username : string) (log : list string) :
  username <> "" ->
  (lookup_fails remote username ->
     tab2 remote strptime today_ist repr sort_mixed username log
     = (Ok UserNotFound, log ++ [users_url username]))
  /\ (forall user_id,
       events_fail remote repr username user_id ->
       user_id <> JNull ->
       tab2 remote strptime today_ist repr sort_mixed username log
       = (Ok NoPushEvents, log ++ [users_url username; events_url repr user_id])).
Proof.
  intros Hne. apply String.eqb_neq in Hne. unfold tab2. rewrite Hne. split.
  - intros H. unfold mbind.
    now rewrite (fetch_lookup_fails remote strptime today_ist repr username log H).
  - intros user_id H Hid. unfold mbind.
    rewrite (fetch_events_fail remote strptime today_ist repr username user_id log H).
    destruct user_id; [congruence | reflexivity ..].
Qed.

Lemma tally_sum (v : json) (counts : list (json * nat)) :
  list_sum (map snd (tally v counts)) = S (list_sum (map snd counts))
  /\ List.length (tally v counts) <= S (List.length counts).
Proof.
  unfold list_sum.
  induction counts as [|[k c] rest [IH1 IH2]]; cbn [tally]; [split; reflexivity|].
  destruct (py_eqb k v); cbn [map snd fold_right List.length]; [split; lia|].
  rewrite IH1. split; lia.
Qed.

Lemma Counter_totals (values : list json) (counts : list (json * nat)) :
  Counter values = Ok counts ->
  list_sum (map snd counts) = List.length values
  /\ List.length counts <= List.length values.
Proof.
  unfold Counter. destruct (forallb hashable values); [|discriminate].
  intros H. injection H as <-.
  assert (G : forall acc,
    list_sum (map snd (fold_left (fun counts v => tally v counts) values acc))
    = List.length values + list_sum (map snd acc)
    /\ List.length (fold_left (fun counts v => tally v counts) values acc)
       <= List.length values + List.length acc).
  { induction values as [|v rest IH]; intros acc; cbn [fold_left List.length];
      [split; reflexivity|].
    destruct (IH (tally v acc)) as [H1 H2]. destruct (tally_sum v acc) as [H3 H4].
    split; lia. }
  destruct (G []) as [H1 H2]. cbn in H1, H2. split; lia.
Qed.

Lemma tab2_summary_total (username : string) (log log' : list string)
    (data : list entry) (proj_count : list (json * nat))
    (total unique_projects : nat) (most_active : json) :
  tab2 remote strptime today_ist repr sort_mixed username log
  = (Ok (Summary data proj_count total unique_projects most_active), log') ->
  0 < total.
Proof.
  intros H. unfold tab2 in H.
  destruct (String.eqb username ""); [discriminate|]. unfold mbind at 1 in H.
  destruct (fetch_user_events remote strptime today_ist repr username log)
    as [[[user_id events]|e] l1]; [|discriminate].
  destruct events as [|event rest]; [destruct user_id; discriminate|].
  assert (Hd : forall c : M page, c l1
                 = (Ok (Summary data proj_count total unique_projects most_active), log') ->
               c = (activity_data <~ activity_data_loop remote repr (event :: rest) [] ;;
                    proj_count <~ lift (Counter (map Project activity_data)) ;;
                    unique_projects <~ lift (nunique (map Project activity_data)) ;;
                    modes <~ lift (mode sort_mixed (map Project activity_data)) ;;
                    most_active <~ lift (first modes) ;;
                    mret (Summary activity_data proj_count (List.length (event :: rest))
                            unique_projects most_active)) ->
               0 < total).
  { intros c Hc ->. unfold mbind, lift, mret in Hc.
    destruct (activity_data_loop remote repr (event :: rest) [] l1) as [[ad|e] l2];
      [|discriminate].
    destruct (Counter (map Project ad)); [|discriminate].
    destruct (nunique (map Project ad)); [|discriminate].
    destruct (mode sort_mixed (map Project ad)) as [ms|]; [|discriminate].
    destruct (first ms); [|discriminate].
    injection Hc as _ _ <- _ _ _. cbn [List.length]. lia. }
  destruct user_id; [discriminate | eapply Hd; [exact H | reflexivity] ..].
Qed.

(** X7. On a page with a summary the total is the number of entries and
    is at least one; the counts per project add up to the total; and the
    number of unique projects is at most the number of keys of the
    counts, which is at most the total. *)
Theorem summary_counts_add_up (username : string) (log log' : list string)
    (data : list entry) (proj_count : list (json * nat))
    (total unique_projects : nat) (most_active : json) :
  tab2 remote strptime today_ist repr sort_mixed username log
  = (Ok (Summary data proj_count total unique_projects most_active), log') ->
  total = List.length data
  /\ 0 < total
  /\ list_sum (map snd proj_count) = total
  /\ unique_projects <= List.length proj_count
  /\ List.length proj_count <= total.
Proof.
  intros H. pose proof (tab2_summary_total _ _ _ _ _ _ _ _ H) as Hpos.
  apply tab2_summary in H.
  destruct H as (user_id & events & names & modes & _ & HF & -> & -> & Hc & Hn & _).
  assert (Hlen : List.length names = List.length events).
  { apply Forall2_length in HF. now rewrite length_map in HF. }
  assert (Hd : List.length (entries_of events names) = List.length events).
  { destruct (entries_of_columns events names Hlen) as (H1 & _).
    rewrite <- (length_map Time), H1. apply length_map. }
  destruct (Counter_totals _ _ Hc) as [Hsum Hkeys]. rewrite length_map in Hsum, Hkeys.
  unfold nunique in Hn. rewrite Hc in Hn. cbn [rbind] in Hn. injection Hn as <-.
  repeat split; try lia.
  pose proof (filter_length_le (fun kc : json * nat => notnull (fst kc)) proj_count). lia.
Qed.

Lemma tab1_loop_runs (usernames : list string) (rows : list row) :
  Forall2 (fun u r => fst (user_row remote strptime today_ist repr u []) = Ok r)
    usernames rows ->
  forall acc log,
    fst (tab1_loop remote strptime today_ist repr usernames acc log) = Ok (acc ++ rows).
Proof.
  induction 1 as [|u r us rs Hr _ IH]; intros acc log.
  - cbn. now rewrite app_nil_r.
  - rewrite tab1_loop_step. unfold mbind.
    rewrite (transparent_user_row remote strptime today_ist repr u log), Hr.
    rewrite IH. now rewrite <- app_assoc.
Qed.

Lemma tab1_rows_of (usernames : list string) (log : list string) (rows : list row) :
  fst (tab1 remote strptime today_ist repr usernames log) = Ok rows ->
  Forall2 (fun u r => fst (user_row remote strptime today_ist repr u []) = Ok r)
    usernames rows.
Proof.
  intros H. unfold tab1 in H.
  destruct (tab1_loop remote strptime today_ist repr usernames [] log) as [res l] eqn:E.
  cbn [fst] in H. subst res. apply tab1_loop_spec in E.
  destruct E as [new [-> HF]]. exact HF.
Qed.

(** X8. The table for a list of usernames made of two parts is the
    table of the first part followed by the table of the second,
    whatever was requested before each run. *)
Theorem tab1_of_two_parts (first_part second_part : list string)
    (log1 log2 log : list string) (rows1 rows2 : list row) :
  fst (tab1 remote strptime today_ist repr first_part log1) = Ok rows1 ->
  fst (tab1 remote strptime today_ist repr second_part log2) = Ok rows2 ->
  fst (tab1 remote strptime today_ist repr (first_part ++ second_part) log)
  = Ok (rows1 ++ rows2).
Proof.
  intros H1 H2. apply tab1_rows_of in H1, H2.
  unfold tab1. rewrite (tab1_loop_runs _ _ (Forall2_app H1 H2)). reflexivity.
Qed.

(** X9. The bulk run stops at the first username whose turn raises:
    the run ends in that exception and returns no table, whatever rows
    the usernames before it had produced and whoever comes after. *)
Theorem first_failing_user_ends_the_bulk_run
    (before : list string) (username : string) (after : list string)
    (e : exn) (log : list string) :
  Forall (fun u => exists r, fst (user_row remote strptime today_ist repr u []) = Ok r)
    before ->
  fst (user_row remote strptime today_ist repr username []) = Raise e ->
  fst (tab1 remote strptime today_ist repr (before ++ username :: after) log) = Raise e.
Proof.
  intros Hb He. unfold tab1. generalize (@nil row) as acc. revert log.
  induction Hb as [|u us [r Hr] _ IH]; intros log acc; cbn [app].
  - rewrite tab1_loop_step. unfold mbind.
    now rewrite (transparent_user_row remote strptime today_ist repr username log), He.
  - rewrite tab1_loop_step. unfold mbind.
    rewrite (transparent_user_row remote strptime today_ist repr u log), Hr. apply IH.
Qed.

End Requests.

Section Report.

Lemma split_newline_not_nil (s : string) : split_newline s <> [].
Proof.
  destruct s as [|c rest]; cbn [split_newline]; [discriminate|].
  destruct (Ascii.eqb c (ascii_of_nat 10)); [discriminate|].
  destruct (split_newline rest); discriminate.
Qed.

Lemma join_split (s : string) : String.concat newline (split_newline s) = s.
Proof.
  induction s as [|c rest IH]; [reflexivity|]. cbn [split_newline].
  pose proof (split_newline_not_nil rest) as Hne.
  destruct (Ascii.eqb_spec c (ascii_of_nat 10)) as [->|Hc].
  - destruct (split_newline rest) as [|piece pieces]; [congruence|].
    change (String.concat newline (EmptyString :: piece :: pieces))
      with (newline ++ String.concat newline (piece :: pieces))%string.
    now rewrite IH.
  - destruct (split_newline rest) as [|piece pieces]; [congruence|].
    destruct pieces as [|piece' pieces].
    + cbn [String.concat] in IH |- *. now rewrite IH.
    + change (String.concat newline (String c piece :: piece' :: pieces))
        with (String c (String.concat newline (piece :: piece' :: pieces))).
      now rewrite IH.
Qed.

Lemma split_single (x : string) :
  has_newline x = false -> split_newline x = [x].
Proof.
  induction x as [|c rest IH]; [reflexivity|]. cbn [has_newline split_newline].
  intros H. apply orb_false_elim in H. destruct H as [Hc Hr].
  rewrite Hc, (IH Hr). reflexivity.
Qed.

Lemma split_line (x rest : string) :
  has_newline x = false ->
  split_newline (x ++ newline ++ rest) = x :: split_newline rest.
Proof.
  induction x as [|c x' IH]; [reflexivity|]. cbn [has_newline].
  intros H. apply orb_false_elim in H. destruct H as [Hc Hr].
  change (String c x' ++ newline ++ rest)%string
    with (String c (x' ++ newline ++ rest)).
  cbn [split_newline]. rewrite Hc, (IH Hr). reflexivity.
Qed.

Lemma split_join (lines : list string) :
  lines <> [] ->
  Forall (fun l => has_newline l = false) lines ->
  split_newline (String.concat newline lines) = lines.
Proof.
  induction lines as [|x rest IH]; [congruence|]. intros _ H.
  inversion H as [|? ? Hx Hrest]; subst.
  destruct rest as [|y rest]; [now apply split_single|].
  change (String.concat newline (x :: y :: rest))
    with (x ++ newline ++ String.concat newline (y :: rest))%string.
  rewrite (split_line _ _ Hx). f_equal. apply IH; [discriminate | exact Hrest].
Qed.

Lemma cell_texts_app (a b : list pdf_op) :
  cell_texts (a ++ b) = cell_texts a ++ cell_texts b.
Proof.
  induction a as [|op rest IH]; [reflexivity|].
  destruct op; cbn [app cell_texts]; rewrite IH; reflexivity.
Qed.

Lemma pdf_activities_texts (activities : list string) :
  forall pdf,
    cell_texts (pdf_activities activities pdf) = cell_texts pdf ++ activities.
Proof.
  induction activities as [|act rest IH]; intros pdf; cbn [pdf_activities].
  - now rewrite app_nil_r.
  - rewrite IH, cell_texts_app. cbn [cell_texts]. now rewrite <- app_assoc.
Qed.

Lemma pdf_rows_texts (dataframe : list row) :
  forall pdf,
    cell_texts (pdf_rows dataframe pdf)
    = cell_texts pdf
      ++ concat (map (fun r =>
           ("Username: " ++ row_username r)%string
           :: ("Push Events: " ++ decimal (Z.of_nat (row_push_events r)))%string
           :: split_newline (row_activity r)) dataframe).
Proof.
  induction dataframe as [|r rest IH]; intros pdf; cbn [pdf_rows map concat].
  - now rewrite app_nil_r.
  - rewrite IH, cell_texts_app, pdf_activities_texts, !cell_texts_app.
    cbn [cell_texts]. rewrite !app_nil_r, <- !app_assoc. reflexivity.
Qed.

(** X10. For a table whose activity texts were built from activity logs
    with no newline inside a line, the report prints for every row, in
    the order of the table, the username, the push count and then the
    lines of the log one cell each, or the single text "No push events
    today." when the log is empty. *)
Theorem report_prints_the_activity_logs
    (dataframe : list row) (logs : list (list string)) :
  Forall2 (fun r lines =>
             row_activity r = activity_text lines
             /\ Forall (fun l => has_newline l = false) lines)
    dataframe logs ->
  exists pdf,
    (forall (buffer : Set) (render : list pdf_op -> buffer),
       generate_pdf render dataframe = render pdf)
    /\ cell_texts pdf
       = concat (map (fun rl => report_block (fst rl) (snd rl)) (combine dataframe logs)).
Proof.
  intros H. eexists. split; [intros; reflexivity|].
  rewrite pdf_rows_texts. cbn [cell_texts app].
  induction H as [|r lines rs ls [Ha Hl] _ IH]; [reflexivity|].
  cbn [map combine concat fst snd]. rewrite IH. unfold report_block.
  cbn [app]. do 2 f_equal. rewrite Ha.
  destruct lines as [|l lines']; [reflexivity|].
  cbn [activity_text]. rewrite split_join; [reflexivity | discriminate | exact Hl].
Qed.

Lemma split_newline_pieces (s : string) :
  Forall (fun piece => has_newline piece = false) (split_newline s).
Proof.
  induction s as [|c rest IH]; cbn [split_newline]; [repeat constructor|].
  destruct (Ascii.eqb c (ascii_of_nat 10)) eqn:Hc.
  - constructor; [reflexivity | exact IH].
  - destruct (split_newline rest) as [|piece pieces]; [repeat constructor|].
    + cbn [has_newline]. now rewrite Hc.
    + inversion IH as [|? ? Hp Hps]; subst. constructor; [|exact Hps].
      cbn [has_newline]. now rewrite Hc, Hp.
Qed.

(** X11. Whatever the table holds, the report prints for every row a
    block of at least three cells: the username, the push count, and the
    pieces of the activity text between its newlines. No piece holds a
    newline, and joined by newlines again the pieces give the activity
    text back: the text is cut at every newline and nowhere else. *)
Theorem report_cells_rejoin_to_the_activity (dataframe : list row) :
  exists blocks,
    cell_texts (generate_pdf (fun pdf => pdf) dataframe) = concat blocks
    /\ Forall2 (fun r block => exists pieces,
                  block = ("Username: " ++ row_username r)%string
                          :: ("Push Events: "
                              ++ decimal (Z.of_nat (row_push_events r)))%string
                          :: pieces
                  /\ pieces <> []
                  /\ Forall (fun piece => has_newline piece = false) pieces
                  /\ String.concat newline pieces = row_activity r)
         dataframe blocks.
Proof.
  unfold generate_pdf. rewrite pdf_rows_texts. cbn [cell_texts app].
  eexists. split; [reflexivity|].
  induction dataframe as [|r rest IH]; cbn [map]; constructor; [|exact IH].
  exists (split_newline (row_activity r)).
  split; [reflexivity|]. split; [apply split_newline_not_nil|].
  split; [apply split_newline_pieces | apply join_split].
Qed.

End Report.

Section Tabs.

Variable remote : string -> result response.
Variable strptime : string -> result datetime.
Variable today_ist : date.
Variable repr : json -> string.
Variable sort_mixed : list json -> list json.

Lemma activity_log_loop_runs (events : list push_event) (names : list json) :
  Forall2 (resolves_to remote repr) (map project events) names ->
  forall acc log,
    fst (activity_log_loop remote repr events acc log)
    = Ok (acc ++ activity_lines repr events names).
Proof.
  revert names. induction events as [|event rest IH]; intros names H acc log;
    inversion H as [|? name ? names' Hn Hrest]; subst.
  - cbn. now rewrite app_nil_r.
  - cbn [activity_log_loop]. unfold mbind at 1.
    rewrite (transparent_resolve remote repr (project event) log).
    unfold resolves_to in Hn. rewrite Hn.
    rewrite (IH names' Hrest). unfold activity_lines.
    cbn [combine map fst snd]. now rewrite <- app_assoc.
Qed.

Lemma lines_of_entries (events : list push_event) :
  forall names,
    activity_lines repr events names = map (entry_line repr) (entries_of events names).
Proof.
  unfold activity_lines, entries_of.
  induction events as [|event rest IH]; intros [|name names]; try reflexivity.
  cbn [combine map fst snd]. now rewrite IH.
Qed.

(** X12. The two tabs agree. When the page of a user shows a summary,
    the bulk run for that user alone returns one row with the same push
    count, whose activity text is made of one line per entry of the
    page, in the same order, with the same branch, project and time. *)
Theorem bulk_row_matches_the_user_page (username : string) (log log' : list string)
    (data : list entry) (proj_count : list (json * nat))
    (total unique_projects : nat) (most_active : json) :
  tab2 remote strptime today_ist repr sort_mixed username log
  = (Ok (Summary data proj_count total unique_projects most_active), log') ->
  forall log2,
    fst (tab1 remote strptime today_ist repr [username] log2)
    = Ok [mkrow username total
            (String.concat newline (map (entry_line repr) data))].
Proof.
  intros H log2.
  pose proof (tab2_summary_total remote strptime today_ist repr sort_mixed
                _ _ _ _ _ _ _ _ H) as Hpos.
  apply tab2_summary in H.
  destruct H as (user_id & events & names & modes & Hf & HF & -> & -> & _).
  unfold tab1. cbn [tab1_loop]. unfold mbind at 1.
  rewrite (transparent_fetch remote strptime today_ist repr username log2).
  rewrite (transparent_fetch remote strptime today_ist repr username log) in Hf.
  cbn [fst] in Hf. rewrite Hf. unfold mbind at 1.
  pose proof (activity_log_loop_runs events names HF []
                (log2 ++ snd (fetch_user_events remote strptime today_ist repr
                                username []))) as Hrun.
  destruct (activity_log_loop remote repr events []
              (log2 ++ snd (fetch_user_events remote strptime today_ist repr
                              username []))) as [res l2].
  cbn [fst] in Hrun. subst res. cbn [app tab1_loop mret fst].
  rewrite lines_of_entries. do 3 f_equal.
  destruct (map (entry_line repr) (entries_of events names)) eqn:E; [|reflexivity].
  apply (f_equal (@List.length string)) in E. rewrite length_map in E.
  assert (Hn : List.length names = List.length events).
  { apply Forall2_length in HF. now rewrite length_map in HF. }
  destruct (entries_of_columns events names Hn) as (Ht & _).
  rewrite <- (length_map Time), Ht, length_map in E.
  cbn [List.length] in E. lia.
Qed.

End Tabs.

(** ** The further properties at work *)


Lemma timeline_reads_every_push_time_witness :
  exists out,
    push_loop strptime_gitlab Demo.today Demo.alice_events [] = Ok out
    /\ Forall (fun p => exists h m,
                 to_datetime_I_M_p (time p) = Ok (h, m)
                 /\ (0 <= h < 24)%Z /\ (0 <= m < 60)%Z) out.
Proof.
  eexists. split; [vm_compute; reflexivity|].
  apply (timeline_reads_every_push_time strptime_gitlab Demo.today Demo.alice_events).
  vm_compute. reflexivity.
Defined.

Lemma one_project_request_per_push_event_witness :
  [project_url Demo.repr (JNum 1); project_url Demo.repr (JNum 1)]
  = [] ++ map (fun e => project_url Demo.repr (project e))
            [mkpush (JNum 1) (JStr "main") "01:30 PM";
             mkpush (JNum 1) (JStr "main") "12:30 PM"].
Proof.
  exact (proj1 (one_project_request_per_push_event Demo.remote Demo.repr
                  [mkpush (JNum 1) (JStr "main") "01:30 PM";
                   mkpush (JNum 1) (JStr "main") "12:30 PM"])
           [] [] _ _ ltac:(vm_compute; reflexivity)).
Defined.

Lemma failing_requests_on_the_user_page_witness :
  tab2 Demo.remote strptime_gitlab Demo.today Demo.repr Demo.sort_mixed "ghost" []
  = (Ok UserNotFound, [users_url "ghost"])
  /\ tab2 Demo.remote strptime_gitlab Demo.today Demo.repr Demo.sort_mixed "heidi" []
     = (Ok NoPushEvents, [users_url "heidi"; events_url Demo.repr (JNum 12)]).
Proof.
  assert (Hghost : lookup_fails Demo.remote "ghost").
  { eexists. split; [reflexivity|]. right. eexists. split; reflexivity. }
  assert (Hheidi : events_fail Demo.remote Demo.repr "heidi" (JNum 12)).
  { do 4 eexists. repeat split; reflexivity. }
  split.
  - exact (proj1 (failing_requests_on_the_user_page Demo.remote strptime_gitlab
                    Demo.today Demo.repr Demo.sort_mixed "ghost" []
                    ltac:(discriminate)) Hghost).
  - exact (proj2 (failing_requests_on_the_user_page Demo.remote strptime_gitlab
                    Demo.today Demo.repr Demo.sort_mixed "heidi" []
                    ltac:(discriminate)) (JNum 12) Hheidi ltac:(discriminate)).
Defined.

Lemma summary_counts_add_up_witness :
  list_sum (map snd [(JStr "A", 2); (JStr "Project not found or private", 1);
                     (JStr "B", 1)]) = 4.
Proof.
  exact (proj1 (proj2 (proj2 (summary_counts_add_up Demo.remote strptime_gitlab
           Demo.today Demo.repr Demo.sort_mixed "dana" [] _ _ _ _ _ _
           ltac:(vm_compute; reflexivity))))).
Defined.

Lemma tab1_of_two_parts_witness :
  fst (tab1 Demo.remote strptime_gitlab Demo.today Demo.repr (["alice"] ++ ["ghost"]) [])
  = Ok ([mkrow "alice" 2
           ("Pushed to 'main' in 'A' at 11:00 AM" ++ newline
              ++ "Pushed to 'dev' in 'B' at 09:00 AM")]
        ++ [mkrow "ghost" 0 "No push events today."]).
Proof.
  exact (tab1_of_two_parts Demo.remote strptime_gitlab Demo.today Demo.repr
           ["alice"] ["ghost"] [] [] [] _ _
           ltac:(vm_compute; reflexivity) ltac:(vm_compute; reflexivity)).
Defined.

Lemma first_failing_user_ends_the_bulk_run_witness :
  fst (tab1 Demo.remote strptime_gitlab Demo.today Demo.repr
         (["alice"] ++ "mallory" :: ["ghost"]) [])
  = Raise ValueError.
Proof.
  apply first_failing_user_ends_the_bulk_run.
  - repeat constructor. eexists. vm_compute. reflexivity.
  - vm_compute. reflexivity.
Defined.

Lemma report_prints_the_activity_logs_witness :
  exists pdf,
    generate_pdf (fun ops => ops)
      [mkrow "alice" 2
         ("Pushed to 'main' in 'A' at 11:00 AM" ++ newline
            ++ "Pushed to 'dev' in 'B' at 09:00 AM");
       mkrow "ghost" 0 "No push events today."] = pdf
    /\ cell_texts pdf
       = ["Username: alice"; "Push Events: 2";
          "Pushed to 'main' in 'A' at 11:00 AM"; "Pushed to 'dev' in 'B' at 09:00 AM";
          "Username: ghost"; "Push Events: 0"; "No push events today."].
Proof.
  destruct (report_prints_the_activity_logs
              [mkrow "alice" 2
                 ("Pushed to 'main' in 'A' at 11:00 AM" ++ newline
                    ++ "Pushed to 'dev' in 'B' at 09:00 AM");
               mkrow "ghost" 0 "No push events today."]
              [["Pushed to 'main' in 'A' at 11:00 AM";
                "Pushed to 'dev' in 'B' at 09:00 AM"]; []])
    as [pdf [Hr Ht]].
  { repeat constructor. }
  exists pdf. split; [apply Hr|]. rewrite Ht. reflexivity.
Defined.

Lemma bulk_row_matches_the_user_page_witness :
  fst (tab1 Demo.remote strptime_gitlab Demo.today Demo.repr ["alice"] [])
  = Ok [mkrow "alice" 2
          (String.concat newline
             (map (entry_line Demo.repr)
                [mkentry (JStr "A") (JStr "main") "11:00 AM";
                 mkentry (JStr "B") (JStr "dev") "09:00 AM"]))].
Proof.
  exact (bulk_row_matches_the_user_page Demo.remote strptime_gitlab Demo.today
           Demo.repr Demo.sort_mixed "alice" [] _ _ _ _ _ _
           ltac:(vm_compute; reflexivity) []).
Defined.

(** ** The filter on the small server *)

Lemma field_range (wmin wmax : nat) (lo hi : Z) (s : string)
    (v : Z) (w : nat) (r : string) :
  field wmin wmax lo hi s = Ok (v, w, r) -> (lo <= v <= hi)%Z.
Proof.
  unfold field. destruct (span_digits s) as [ds r'].
  destruct (Nat.leb wmin (List.length ds) && Nat.leb (List.length ds) wmax
            && Z.leb lo (number ds) && Z.leb (number ds) hi) eqn:E; [|discriminate].
  intros H. injection H as <- _ _.
  apply andb_prop in E. destruct E as [E Hhi].
  apply andb_prop in E. destruct E as [_ Hlo].
  apply Z.leb_le in Hlo, Hhi. lia.
Qed.

(** The parser of the examples returns clock times only. *)
Lemma strptime_gitlab_clock (s : string) (t : datetime) :
  strptime_gitlab s = Ok t -> valid_clock t.
Proof.
  unfold strptime_gitlab. intros H.
  destruct (field 4 4 0 9999 s) as [[[yy ?] s1]|]; [|discriminate]. cbn [rbind] in H.
  destruct (literal "-" "-" s1) as [s2|]; [|discriminate]. cbn [rbind] in H.
  destruct (field 1 2 1 12 s2) as [[[mo ?] s3]|]; [|discriminate]. cbn [rbind] in H.
  destruct (literal "-" "-" s3) as [s4|]; [|discriminate]. cbn [rbind] in H.
  destruct (field 1 2 1 31 s4) as [[[dd ?] s5]|]; [|discriminate]. cbn [rbind] in H.
  destruct (literal "t" "T" s5) as [s6|]; [|discriminate]. cbn [rbind] in H.
  destruct (field 1 2 0 23 s6) as [[[hh ?] s7]|] eqn:Hh; [|discriminate].
  cbn [rbind] in H.
  destruct (literal ":" ":" s7) as [s8|]; [|discriminate]. cbn [rbind] in H.
  destruct (field 1 2 0 59 s8) as [[[mi ?] s9]|] eqn:Hm; [|discriminate].
  cbn [rbind] in H.
  destruct (literal ":" ":" s9) as [s10|]; [|discriminate]. cbn [rbind] in H.
  destruct (field 1 2 0 61 s10) as [[[ss ?] s11]|]; [|discriminate]. cbn [rbind] in H.
  destruct (literal "." "." s11) as [s12|]; [|discriminate]. cbn [rbind] in H.
  destruct (field 1 6 0 999999 s12) as [[[f w] s13]|]; [|discriminate].
  cbn [rbind] in H.
  destruct (literal "z" "Z" s13) as [s14|]; [|discriminate]. cbn [rbind] in H.
  destruct (String.eqb s14 "" && Z.leb 1 yy && Z.leb dd (days_in_month yy mo)
            && Z.leb ss 59); [|discriminate].
  injection H as <-. apply field_range in Hh, Hm.
  unfold valid_clock. cbn [hour minute]. lia.
Qed.

Lemma push_loop_selects_pushes_of_the_day_witness :
  exists out,
    push_loop strptime_gitlab Demo.today Demo.alice_events [] = Ok out
    /\ Forall2 (kept_as strptime_gitlab)
         (filter (pushed_on_report_date strptime_gitlab Demo.today) Demo.alice_events)
         out
    /\ List.length out <= List.length Demo.alice_events.
Proof.
  destruct (push_loop_selects_pushes_of_the_day strptime_gitlab Demo.today
              Demo.alice_events strptime_gitlab_clock) as [[Hwf _] Hsel].
  destruct (Hwf ltac:(vm_compute; reflexivity)) as [out Hout].
  exists out. destruct (Hsel out Hout) as (HF & Hle).
  repeat split; assumption.
Defined.

(** C1: in mallory's stream two events are pushes of the report date
    and a third cannot be read; the loop raises and has no output, so
    neither of the two appears. *)
Lemma qualifying_events_are_lost_when_the_loop_raises :
  filter (pushed_on_report_date strptime_gitlab Demo.today) Demo.mallory_events
  = [Demo.pushed 1 "main" "2024-03-05T08:00:00.000Z";
     Demo.pushed 3 "main" "2024-03-05T05:00:00.000Z"]
  /\ push_loop strptime_gitlab Demo.today Demo.mallory_events [] = Raise ValueError
  /\ ~ (exists out,
         push_loop strptime_gitlab Demo.today Demo.mallory_events [] = Ok out).
Proof.
  assert (H : push_loop strptime_gitlab Demo.today Demo.mallory_events []
              = Raise ValueError) by (vm_compute; reflexivity).
  split; [vm_compute; reflexivity|]. split; [exact H|].
  intros [out Hout]. rewrite H in Hout. discriminate.
Qed.
